(** * matterbridge-meross-lights: the Meross LAN client and the Matter
      command handlers, embedded in Rocq.

    Sources embedded here:
    - [src/merossHttp.ts]: message id, timestamp, signature, request
      envelope, the HTTP POST with its response handling, the ToggleX and
      Light commands, [rgbToInt];
    - the platform module ([module.ts], multi-device version): [clamp],
      [hsvToRgbInt], [validateDevices], [discoverDevices] and the command
      handlers with their per-device colour and luminance cache.

    JavaScript numbers are IEEE 754 binary64 values: they are modelled by
    Rocq's primitive [float], which is the same format with the same
    round-to-nearest-even arithmetic.  Values produced by the bitwise
    operators are 32-bit integers and are modelled in [Z] with the
    wrap-around written out.  Asynchronous functions are computations over
    an explicit state (the requests posted so far, the caches, the endpoints
    registered) that end fulfilled or rejected; the clock, the random source,
    the device's answers, [JSON.parse] and the host's [registerDevice] are
    given by an environment.  Calls to the logger are left out. *)

From Stdlib Require Import ZArith List Bool Lia String Ascii DecimalString.
From Stdlib Require Import QArith Qround Qabs.
From Stdlib Require Import Floats Uint63.
Import ListNotations.

Local Open Scope Z_scope.

(* ================================================================== *)
(** * Finite ranges of integers *)
(* ================================================================== *)

Module Range.

(** The integers [lo, lo + 1, ..., lo + n - 1]. *)
Definition zrange (lo : Z) (n : nat) : list Z :=
  map (fun i => lo + Z.of_nat i) (seq 0 n).

End Range.

(* ================================================================== *)
(** * JavaScript numbers and the [Math] functions the program uses *)
(* ================================================================== *)

Module JS.

(** An integer as a Number.  Exact for [|z| <= 2^53]. *)
Definition Z2f (z : Z) : float :=
  match z with
  | Z0 => PrimFloat.zero
  | Zpos _ => of_uint63 (Uint63.of_Z z)
  | Zneg p => (- of_uint63 (Uint63.of_Z (Zpos p)))%float
  end.

(** [Number.isFinite]: neither NaN nor an infinity. *)
Definition Number_isFinite (x : float) : bool := PrimFloat.is_finite x.

(** [Math.max] of two arguments: NaN if either is NaN, and [+0] is larger
    than [-0]. *)
Definition Math_max (a b : float) : float :=
  if is_nan a || is_nan b then nan
  else if (a <? b)%float then b
  else if (b <? a)%float then a
  else if get_sign a then b else a.

(** [Math.min] of two arguments: NaN if either is NaN, and [-0] is smaller
    than [+0]. *)
Definition Math_min (a b : float) : float :=
  if is_nan a || is_nan b then nan
  else if (a <? b)%float then a
  else if (b <? a)%float then b
  else if get_sign a then a else b.

Definition Math_abs (x : float) : float := PrimFloat.abs x.

(** [Math.round]: the integral Number closest to [x], ties going towards
    +infinity; NaN, the infinities and the zeros are returned unchanged, and
    a negative [x] that rounds to zero gives [-0].  A finite non-zero [x] is
    [(+/-) m * 2^e]; with [e >= 0] it is integral already, otherwise the
    result is [floor (x + 1/2)], computed exactly on the mantissa. *)
Definition Math_round (x : float) : float :=
  match Prim2SF x with
  | S754_finite s m e =>
      if 0 <=? e then x
      else
        let M := if s then Zneg m else Zpos m in
        let n := Z.shiftr (2 * M + 2 ^ (- e)) (- e + 1) in
        if n =? 0 then (if s then neg_zero else PrimFloat.zero) else Z2f n
  | _ => x
  end.

(** The remainder operator [a % b] on Numbers: the sign of the dividend,
    magnitude below the divisor's, always exact. *)
Definition rem (a b : float) : float :=
  match Prim2SF a, Prim2SF b with
  | S754_nan, _ | _, S754_nan => nan
  | S754_infinity _, _ | _, S754_zero _ => nan
  | S754_zero _, _ | _, S754_infinity _ => a
  | S754_finite sa ma ea, S754_finite _ mb eb =>
      let e := Z.min ea eb in
      match (Zpos ma * 2 ^ (ea - e)) mod (Zpos mb * 2 ^ (eb - e)) with
      | Zpos r => SF2Prim (S754_finite sa r e)
      | _ => if sa then neg_zero else PrimFloat.zero
      end
  end.

(** The integer part of a Number, towards zero; 0 for NaN and infinities
    (the first step of ToInt32 and ToUint32). *)
Definition truncZ (x : float) : Z :=
  match Prim2SF x with
  | S754_finite s m e => let a := Z.shiftl (Zpos m) e in if s then - a else a
  | _ => 0
  end.

(** Wrap an integer to the signed 32-bit range. *)
Definition int32 (z : Z) : Z := (z + 2 ^ 31) mod 2 ^ 32 - 2 ^ 31.

(** Wrap an integer to the unsigned 32-bit range. *)
Definition uint32 (z : Z) : Z := z mod 2 ^ 32.

Definition ToInt32 (x : float) : Z := int32 (truncZ x).

(** [a << k] for a Number [a] and a literal shift count [0 <= k < 32]. *)
Definition shl (a : float) (k : Z) : Z := int32 (Z.shiftl (ToInt32 a) k).

(** [a | b] on two 32-bit integers. *)
Definition bor (a b : Z) : Z := int32 (Z.lor (int32 a) (int32 b)).

(** [n >>> 0] on an integral Number. *)
Definition ushr0 (n : Z) : Z := uint32 n.

(** The template literal [`${n}`] for an integral Number [n] with
    [|n| <= 2^53 - 1]: its decimal digits, with a leading minus sign when
    negative. *)
Definition Number_toString (n : Z) : string :=
  NilZero.string_of_int (Z.to_int n).

End JS.

(* ================================================================== *)
(** * Colour conversion *)
(* ================================================================== *)

Module Color.
Import JS.

(** [clamp] of the platform module. *)
Definition clamp (n min max : float) : float :=
  Math_max min (Math_min max n).

(** [rgbToInt] of merossHttp.ts: [(rr << 16) | (gg << 8) | bb]. *)
Definition rgbToInt (r g b : float) : Z :=
  let rr := Math_max 0 (Math_min 255 (Math_round r)) in
  let gg := Math_max 0 (Math_min 255 (Math_round g)) in
  let bb := Math_max 0 (Math_min 255 (Math_round b)) in
  bor (bor (shl rr 16) (shl gg 8)) (ToInt32 bb).

(** [hsvToRgbInt] of the platform module. *)
Definition hsvToRgbInt (hue254 sat254 : float) : Z :=
  let h := (clamp hue254 0 254 / 254 * 360)%float in
  let s := (clamp sat254 0 254 / 254)%float in
  let v := 1%float in
  let c := (v * s)%float in
  let x := (c * (1 - Math_abs (rem (h / 60) 2 - 1)))%float in
  let m := (v - c)%float in
  let '(r1, g1, b1) :=
    if (h <? 60)%float then (c, x, 0%float)
    else if (h <? 120)%float then (x, c, 0%float)
    else if (h <? 180)%float then (0%float, c, x)
    else if (h <? 240)%float then (0%float, x, c)
    else if (h <? 300)%float then (x, 0%float, c)
    else (c, 0%float, x) in
  let r := Math_round ((r1 + m) * 255) in
  let g := Math_round ((g1 + m) * 255) in
  let b := Math_round ((b1 + m) * 255) in
  rgbToInt r g b.

(** Reading a packed colour back: high byte red, middle byte green, low
    byte blue of the 24-bit value [0xRRGGBB]. *)
Definition unpackRgb (n : Z) : Z * Z * Z :=
  (Z.land (Z.shiftr n 16) 255, Z.land (Z.shiftr n 8) 255, Z.land n 255).

(** The packed value [0xRRGGBB] of three channels. *)
Definition packRgb (rgb : Z * Z * Z) : Z :=
  let '(r, g, b) := rgb in r * 65536 + g * 256 + b.

(** ** The textbook HSV to RGB conversion, in exact rational arithmetic

    Written from the description of the conversion, not from the code:
    hue in degrees, saturation in [0,1], value 1, chroma [c = v * s],
    [x = c * (1 - |(h / 60) mod 2 - 1|)], lightness offset [m = v - c], the
    sector being the index of the 60-degree slice the hue falls in (the full
    turn is the same hue as 0 degrees), each channel
    rounded to the nearest integer (a half rounds up). *)
Definition Qround (q : Q) : Z := Qfloor (q + (1 # 2)).

Definition Qmod2 (t : Q) : Q := t - 2 * inject_Z (Qfloor (t / 2)).

Definition hsv_reference (hue254 sat254 : Z) : Z * Z * Z :=
  let h := (inject_Z hue254 / 254 * 360)%Q in
  let s := (inject_Z sat254 / 254)%Q in
  let v := 1%Q in
  let c := (v * s)%Q in
  let x := (c * (1 - Qabs (Qmod2 (h / 60) - 1)))%Q in
  let m := (v - c)%Q in
  let '(r1, g1, b1) :=
    match Qfloor (h / 60) mod 6 with
    | 0 => (c, x, 0%Q)
    | 1 => (x, c, 0%Q)
    | 2 => (0%Q, c, x)
    | 3 => (0%Q, x, c)
    | 4 => (x, 0%Q, c)
    | _ => (c, 0%Q, x)
    end in
  (Qround ((r1 + m) * 255), Qround ((g1 + m) * 255), Qround ((b1 + m) * 255)).

Definition channel_ok (z : Z) : bool := (0 <=? z) && (z <=? 255).

(** [hsvToRgbInt] in two stages: the three rounded channels, from the
    remainder [tri = (h / 60) % 2], the hue [h] in degrees and the saturation
    [s]; the result of [hsvToRgbInt] is [rgbToInt] of these three. *)
Definition hsv_rounded (tri h s : float) : float * float * float :=
  let v := 1%float in
  let c := (v * s)%float in
  let x := (c * (1 - Math_abs (tri - 1)))%float in
  let m := (v - c)%float in
  let '(r1, g1, b1) :=
    if (h <? 60)%float then (c, x, 0%float)
    else if (h <? 120)%float then (x, c, 0%float)
    else if (h <? 180)%float then (0%float, c, x)
    else if (h <? 240)%float then (0%float, x, c)
    else if (h <? 300)%float then (x, 0%float, c)
    else (c, 0%float, x) in
  (Math_round ((r1 + m) * 255), Math_round ((g1 + m) * 255),
   Math_round ((b1 + m) * 255)).

(** One grid point of the comparison of the code with the reference: the
    three rounded channels are the reference's, which lie in [0,255]. *)
Definition hsv_point_ok (tri h : float) (hue sat : Z) : bool :=
  let '(r, g, b) := hsv_rounded tri h (clamp (Z2f sat) 0 254 / 254)%float in
  let '(R, G, B) := hsv_reference hue sat in
  PrimFloat.Leibniz.eqb r (Z2f R) && PrimFloat.Leibniz.eqb g (Z2f G)
  && PrimFloat.Leibniz.eqb b (Z2f B)
  && channel_ok R && channel_ok G && channel_ok B.

(** One hue of the grid, against every saturation. *)
Definition hsv_hue_ok (hue : Z) : bool :=
  let h := (clamp (Z2f hue) 0 254 / 254 * 360)%float in
  let tri := rem (h / 60) 2 in
  forallb (hsv_point_ok tri h hue) (Range.zrange 0 255).

(** [clamp] leaves an integer of the range as it is. *)
Definition clamp_point_ok (z : Z) : bool :=
  PrimFloat.Leibniz.eqb (clamp (Z2f z) 0 254) (Z2f z).

(** One byte through the channel normalisation of [rgbToInt]. *)
Definition channel_point_ok (z : Z) : bool :=
  ToInt32 (Math_max 0 (Math_min 255 (Math_round (Z2f z)))) =? z.

End Color.

(* ================================================================== *)
(** * node:crypto's [createHash('md5')]: MD5 as in RFC 1321 *)
(* ================================================================== *)

Module Md5.

(** A 32-bit word. *)
Definition word (z : Z) : Z := z mod 2 ^ 32.

(** Bitwise complement of a 32-bit word. *)
Definition not32 (x : Z) : Z := Z.lxor x 0xffffffff.

(** Rotation of a 32-bit word to the left by [c] bits. *)
Definition rotl (x c : Z) : Z :=
  word (Z.lor (Z.shiftl x c) (Z.shiftr x (32 - c))).

(** [K i = floor (2^32 * |sin (i + 1)|)]. *)
Definition K : list Z :=
  [ 0xd76aa478; 0xe8c7b756; 0x242070db; 0xc1bdceee;
    0xf57c0faf; 0x4787c62a; 0xa8304613; 0xfd469501;
    0x698098d8; 0x8b44f7af; 0xffff5bb1; 0x895cd7be;
    0x6b901122; 0xfd987193; 0xa679438e; 0x49b40821;
    0xf61e2562; 0xc040b340; 0x265e5a51; 0xe9b6c7aa;
    0xd62f105d; 0x02441453; 0xd8a1e681; 0xe7d3fbc8;
    0x21e1cde6; 0xc33707d6; 0xf4d50d87; 0x455a14ed;
    0xa9e3e905; 0xfcefa3f8; 0x676f02d9; 0x8d2a4c8a;
    0xfffa3942; 0x8771f681; 0x6d9d6122; 0xfde5380c;
    0xa4beea44; 0x4bdecfa9; 0xf6bb4b60; 0xbebfbc70;
    0x289b7ec6; 0xeaa127fa; 0xd4ef3085; 0x04881d05;
    0xd9d4d039; 0xe6db99e5; 0x1fa27cf8; 0xc4ac5665;
    0xf4292244; 0x432aff97; 0xab9423a7; 0xfc93a039;
    0x655b59c3; 0x8f0ccc92; 0xffeff47d; 0x85845dd1;
    0x6fa87e4f; 0xfe2ce6e0; 0xa3014314; 0x4e0811a1;
    0xf7537e82; 0xbd3af235; 0x2ad7d2bb; 0xeb86d391 ].

(** The per-round rotation amounts. *)
Definition S : list Z :=
  [ 7; 12; 17; 22; 7; 12; 17; 22; 7; 12; 17; 22; 7; 12; 17; 22;
    5; 9; 14; 20; 5; 9; 14; 20; 5; 9; 14; 20; 5; 9; 14; 20;
    4; 11; 16; 23; 4; 11; 16; 23; 4; 11; 16; 23; 4; 11; 16; 23;
    6; 10; 15; 21; 6; 10; 15; 21; 6; 10; 15; 21; 6; 10; 15; 21 ].

(** The [n] low bytes of [z], least significant first. *)
Definition le_bytes (n : nat) (z : Z) : list Z :=
  map (fun i => (z / 256 ^ Z.of_nat i) mod 256) (seq 0 n).

(** Four bytes, least significant first, as a word. *)
Definition le_word (bs : list Z) : Z :=
  nth 0 bs 0 + 256 * nth 1 bs 0 + 65536 * nth 2 bs 0 + 16777216 * nth 3 bs 0.

(** Padding: a 1 bit, zeros up to 56 modulo 64 bytes, then the bit length
    on 64 bits. *)
Definition pad (msg : list Z) : list Z :=
  let len := Z.of_nat (List.length msg) in
  (msg ++ [0x80] ++ repeat 0 (Z.to_nat ((55 - len) mod 64))
       ++ le_bytes 8 ((8 * len) mod 2 ^ 64))%list.

Definition block_words (block : list Z) : list Z :=
  map (fun j => le_word (firstn 4 (skipn (4 * j) block))) (seq 0 16).

(** The auxiliary function of round [i] and the index of the message word
    it uses. *)
Definition mix (i : nat) (b c d : Z) : Z * nat :=
  if (i <? 16)%nat then (Z.lor (Z.land b c) (Z.land (not32 b) d), i)
  else if (i <? 32)%nat then
    (Z.lor (Z.land d b) (Z.land (not32 d) c), (5 * i + 1) mod 16)%nat
  else if (i <? 48)%nat then (Z.lxor b (Z.lxor c d), (3 * i + 5) mod 16)%nat
  else (Z.lxor c (Z.lor b (not32 d)), (7 * i) mod 16)%nat.

Definition state : Type := Z * Z * Z * Z.

Definition step (M : list Z) (st : state) (i : nat) : state :=
  let '(a, b, c, d) := st in
  let '(f, g) := mix i b c d in
  let f' := word (f + a + nth i K 0 + nth g M 0) in
  (d, word (b + rotl f' (nth i S 0)), b, c).

Definition process (st : state) (block : list Z) : state :=
  let '(a0, b0, c0, d0) := st in
  let '(a, b, c, d) := fold_left (step (block_words block)) (seq 0 64) st in
  (word (a0 + a), word (b0 + b), word (c0 + c), word (d0 + d)).

Definition blocks (bytes : list Z) : list (list Z) :=
  map (fun i => firstn 64 (skipn (64 * i) bytes)) (seq 0 (List.length bytes / 64)).

Definition init : state := (0x67452301, 0xefcdab89, 0x98badcfe, 0x10325476).

(** The 16-byte digest. *)
Definition digest (msg : list Z) : list Z :=
  let '(a, b, c, d) := fold_left process (blocks (pad msg)) init in
  (le_bytes 4 a ++ le_bytes 4 b ++ le_bytes 4 c ++ le_bytes 4 d)%list.

End Md5.

(* ================================================================== *)
(** * Strings, bytes and hexadecimal text *)
(* ================================================================== *)

Module Text.

Local Open Scope string_scope.

(** The bytes hashed by [update(s)].  A string is kept as the sequence of its
    UTF-8 bytes, one [ascii] per byte. *)
Definition utf8 (s : string) : list Z :=
  map (fun a => Z.of_N (N_of_ascii a)) (list_ascii_of_string s).

Definition hex_digit (n : Z) : ascii :=
  nth (Z.to_nat n) (list_ascii_of_string "0123456789abcdef") "0"%char.

(** [toString('hex')] of a Buffer and [digest('hex')] of a hash: two
    lowercase hexadecimal digits per byte. *)
Fixpoint hex (bytes : list Z) : string :=
  match bytes with
  | [] => EmptyString
  | b :: rest =>
      String (hex_digit (b / 16)) (String (hex_digit (b mod 16)) (hex rest))
  end.

Definition lower_char (c : ascii) : ascii :=
  let n := N_of_ascii c in
  if ((65 <=? n) && (n <=? 90))%N then ascii_of_N (n + 32) else c.

(** [toLowerCase] on ASCII text. *)
Fixpoint toLowerCase (s : string) : string :=
  match s with
  | EmptyString => EmptyString
  | String c rest => String (lower_char c) (toLowerCase rest)
  end.

Definition is_lower_hex (c : ascii) : bool :=
  existsb (Ascii.eqb c) (list_ascii_of_string "0123456789abcdef").

(** A hexadecimal digit is lowercase, and [toLowerCase] keeps it. *)
Definition hex_digit_ok (n : Z) : bool :=
  is_lower_hex (hex_digit n)
  && Ascii.eqb (lower_char (hex_digit n)) (hex_digit n).

(** An optional string inside a template literal. *)
Definition template (o : option string) : string :=
  match o with Some s => s | None => "undefined" end.

(** A byte value. *)
Definition is_byte (b : Z) : Prop := 0 <= b < 256.

(** Every character is one of [0-9a-f]. *)
Definition lower_hex_text (s : string) : Prop :=
  forallb is_lower_hex (list_ascii_of_string s) = true.

End Text.

(* ================================================================== *)
(** * merossHttp.ts *)
(* ================================================================== *)

Module MerossHttp.
Import JS Text.

Local Open Scope string_scope.

Inductive MerossMethod : Type := GET | SET.

(** The payloads the module sends: [{ togglex: { channel, onoff } }] and
    [{ light: { rgb?, capacity, luminance, channel } }]. *)
Inductive Payload : Type :=
| TogglexPayload (channel onoff : Z)
| LightPayload (rgb : option Z) (capacity : Z) (luminance : float) (channel : Z).

Record Header : Type := {
  from : string;
  messageId : string;
  method : MerossMethod;
  namespace : string;
  payloadVersion : Z;
  timestamp : Z;
  sign : string
}.

Record MerossRequest : Type := { header : Header; payload : Payload }.

(** [crypto.randomBytes(n)]: [n] bytes drawn from an entropy source. *)
Definition randomBytes (source : nat -> Z) (n : nat) : list Z :=
  map (fun i => source i mod 256) (seq 0 n).

Definition createMerossMessageId (source : nat -> Z) : string :=
  hex (randomBytes source 16).

(** [Math.floor(Date.now() / 1000)], with [Date.now()] an integral number of
    milliseconds. *)
Definition createMerossTimestamp (now_ms : Z) : Z := now_ms / 1000.

Definition createMerossSign (messageId key : string) (timestamp : Z) : string :=
  toLowerCase
    (hex (Md5.digest (utf8 (messageId ++ key ++ Number_toString timestamp)))).

Definition buildMerossRequest (source : nat -> Z) (now_ms : Z)
    (ip key namespace : string) (method : MerossMethod) (payload : Payload)
  : MerossRequest :=
  let messageId := createMerossMessageId source in
  let timestamp := createMerossTimestamp now_ms in
  {| header := {| from := "http://" ++ ip ++ "/config";
                  messageId := messageId;
                  method := method;
                  namespace := namespace;
                  payloadVersion := 1;
                  timestamp := timestamp;
                  sign := createMerossSign messageId key timestamp |};
     payload := payload |}.

(** ** The asynchronous part: promises, the network and the JSON parser *)

Inductive JsError : Type :=
| Error (message : string)        (* [new Error(message)] *)
| FetchFailed (reason : string)   (* [fetch] could not reach the device *)
| AbortError.                     (* the request was aborted by its signal *)

(** A settled promise. *)
Inductive Outcome (A : Type) : Type :=
| Fulfilled (a : A)
| Rejected (e : JsError).
Arguments Fulfilled {A} a.
Arguments Rejected {A} e.

(** What [fetch] gives back: a rejection, or a response with its status and
    the settled promise of [res.text()]. *)
Inductive FetchResult : Type :=
| FetchRejected (e : JsError)
| FetchResponse (status : Z) (text : Outcome string).

(** One [fetch(url, { method: 'POST', headers: { 'Content-Type':
    'application/json' }, body: JSON.stringify(body), signal })], the signal
    being aborted [timeoutMs] milliseconds after the call. *)
Record HttpPost : Type := { url : string; body : MerossRequest; timeoutMs : Z }.

#[local] Unset Elimination Schemes.
Inductive JSON : Type :=
| JNull
| JBool (b : bool)
| JNumber (n : float)
| JString (s : string)
| JArray (items : list JSON)
| JObject (fields : list (string * JSON)).
#[local] Set Elimination Schemes.

(** The value [merossPostConfig] resolves to: the parsed body, or the text
    itself when it does not parse. *)
Inductive ResponseValue : Type :=
| Parsed (j : JSON)
| RawText (text : string).

(** The world outside the program.  The [n]-th request (counting from 0)
    draws its random bytes from [random_source n], reads the clock as
    [Date_now n] and receives [fetch n post] as the result of its POST;
    [JSON_parse] is [None] where [JSON.parse] throws; [host_registerDevice]
    is the host's [registerDevice], by endpoint id, [None] when it succeeds. *)
Record Env : Type := {
  random_source : nat -> nat -> Z;
  Date_now : nat -> Z;
  fetch : nat -> HttpPost -> FetchResult;
  JSON_parse : string -> option JSON;
  host_registerDevice : string -> option JsError
}.

(** An asynchronous computation over a state [S]: it settles, and leaves a
    state behind whether it is fulfilled or rejected. *)
Definition Async (S A : Type) : Type := S -> Outcome A * S.

Definition ret {S A : Type} (a : A) : Async S A := fun s => (Fulfilled a, s).

Definition throw {S A : Type} (e : JsError) : Async S A :=
  fun s => (Rejected e, s).

(** [await]: the continuation runs only when the awaited promise is
    fulfilled; a rejection ends the computation. *)
Definition bind {S A B : Type} (m : Async S A) (k : A -> Async S B)
  : Async S B :=
  fun s =>
    match m s with
    | (Fulfilled a, s') => k a s'
    | (Rejected e, s') => (Rejected e, s')
    end.

Definition get {S : Type} : Async S S := fun s => (Fulfilled s, s).

Definition modify {S : Type} (f : S -> S) : Async S unit :=
  fun s => (Fulfilled tt, f s).

Definition settle {S A : Type} (o : Outcome A) : Async S A := fun s => (o, s).

(** A settled promise whose value is dropped. *)
Definition void {A : Type} (o : Outcome A) : Outcome unit :=
  match o with
  | Fulfilled _ => Fulfilled tt
  | Rejected e => Rejected e
  end.

Notation "x <- m ;; k" := (bind m (fun x => k))
  (at level 61, m at next level, right associativity).

(** The network state: the POSTs issued so far, oldest first. *)
Definition Net : Type := list HttpPost.

(** [res.ok]: the status is in the range 200-299. *)
Definition ok (status : Z) : bool :=
  ((200 <=? status) && (status <=? 299))%Z.

(** [await fetch(...)]: the POST is issued, and the promise settles with what
    the world answers. *)
Definition await_fetch (env : Env) (post : HttpPost)
  : Async Net (Z * Outcome string) :=
  fun net =>
    match fetch env (List.length net) post with
    | FetchRejected e => (Rejected e, (net ++ [post])%list)
    | FetchResponse status text => (Fulfilled (status, text), (net ++ [post])%list)
    end.

(** The default of the [timeoutMs] parameter. *)
Definition default_timeoutMs : Z := 4000.

(** [merossPostConfig].  The [finally] clause only clears the abort timer; an
    abort that fires first is the rejection [AbortError] of [fetch] or of
    [res.text()]. *)
Definition merossPostConfig (env : Env) (ip key namespace : string)
    (method : MerossMethod) (payload : Payload) (timeoutMs : Z)
  : Async Net ResponseValue :=
  n <- (fun net => (Fulfilled (List.length net), net)) ;;
  let body :=
    buildMerossRequest (random_source env n) (Date_now env n)
                       ip key namespace method payload in
  res <- await_fetch env {| url := "http://" ++ ip ++ "/config";
                            body := body;
                            timeoutMs := timeoutMs |} ;;
  text <- settle (snd res) ;;
  if negb (ok (fst res)) then
    throw (Error ("Meross HTTP " ++ Number_toString (fst res) ++ ": " ++ text))
  else
    match JSON_parse env text with
    | Some j => ret (Parsed j)
    | None => ret (RawText text)
    end.

Definition merossToggleX (env : Env) (ip key : string) (channel : Z) (on : bool)
  : Async Net ResponseValue :=
  merossPostConfig env ip key "Appliance.Control.ToggleX" SET
    (TogglexPayload channel (if on then 1 else 0)) default_timeoutMs.

Definition merossSetBrightness (env : Env) (ip key : string) (channel : Z)
    (luminance : float) : Async Net ResponseValue :=
  let lum := Math_max 0 (Math_min 100 (Math_round luminance)) in
  merossPostConfig env ip key "Appliance.Control.Light" SET
    (LightPayload None 4 lum channel) default_timeoutMs.

(** [rgb24] is an integral Number: the callers pass the cached colour, which
    is [0xffffff] or a result of [rgbToInt]. *)
Definition merossSetRgbAndBrightness (env : Env) (ip key : string)
    (channel : Z) (rgb24 : Z) (luminance : float) : Async Net ResponseValue :=
  let lum := Math_max 0 (Math_min 100 (Math_round luminance)) in
  let rgb := ushr0 rgb24 in
  merossPostConfig env ip key "Appliance.Control.Light" SET
    (LightPayload (Some rgb) 5 lum channel) default_timeoutMs.

(** The POST that [merossPostConfig] issues when [n] requests were issued
    before it. *)
Definition post_of (env : Env) (n : nat) (ip key namespace : string)
    (method : MerossMethod) (payload : Payload) (timeoutMs : Z) : HttpPost :=
  {| url := "http://" ++ ip ++ "/config";
     body := buildMerossRequest (random_source env n) (Date_now env n)
               ip key namespace method payload;
     timeoutMs := timeoutMs |}.

(** How the promise of [merossPostConfig] settles on each answer. *)
Definition settled (env : Env) (r : FetchResult) : Outcome ResponseValue :=
  match r with
  | FetchRejected e => Rejected e
  | FetchResponse _ (Rejected e) => Rejected e
  | FetchResponse status (Fulfilled text) =>
      if ok status then
        match JSON_parse env text with
        | Some j => Fulfilled (Parsed j)
        | None => Fulfilled (RawText text)
        end
      else
        Rejected (Error ("Meross HTTP " ++ Number_toString status
                           ++ ": " ++ text))
  end.

End MerossHttp.

(* ================================================================== *)
(** * The platform module: configuration, registration, command handlers *)
(* ================================================================== *)

Module Config.

(** One entry of [config.devices].  A field is [None] when it is absent
    ([undefined] or [null]); an entry that is itself [null] reads as an
    entry with every field absent. *)
Record MerossDeviceConfig : Type := {
  id : option string;
  name : option string;
  ip : option string;
  key : option string;
  channel : option Z
}.

(** [devices] is [None] when [config.devices] is not an array. *)
Record MerossPlatformConfig : Type := {
  devices : option (list MerossDeviceConfig)
}.

End Config.

Module Platform.
Import JS Text Color MerossHttp.

Local Open Scope string_scope.

(** The two variables [lastRgb] and [lastLum] captured by the handlers of
    one device. *)
Record Cache : Type := { lastRgb : Z; lastLum : float }.

(** [let lastRgb = 0xffffff; let lastLum = 100;] *)
Definition initial_cache : Cache := {| lastRgb := 0xffffff; lastLum := 100 |}.

(** What the host is given for a device: the endpoint id, the device name
    and the serial number [SN-<id>]. *)
Record Endpoint : Type := {
  endpoint_id : string;
  deviceName : string;
  serialNumber : string
}.

(** The state of a running platform: the network, one cache per device id,
    and the endpoints registered with the host, oldest first. *)
Record State : Type := {
  net : Net;
  caches : string -> Cache;
  registered : list Endpoint
}.

Definition with_net (n : Net) (s : State) : State :=
  {| net := n; caches := caches s; registered := registered s |}.

Definition with_cache (dev : string) (c : Cache) (s : State) : State :=
  {| net := net s;
     caches := fun k => if String.eqb k dev then c else caches s k;
     registered := registered s |}.

Definition with_endpoint (e : Endpoint) (s : State) : State :=
  {| net := net s; caches := caches s;
     registered := (registered s ++ [e])%list |}.

(** A network call made from the platform. *)
Definition liftNet {A : Type} (m : Async Net A) : Async State A :=
  fun s => let '(r, n) := m (net s) in (r, with_net n s).

Definition read_cache (dev : string) : Async State Cache :=
  fun s => (Fulfilled (caches s dev), s).

Definition set_lastLum (dev : string) (v : float) : Async State unit :=
  modify (fun s =>
    with_cache dev {| lastRgb := lastRgb (caches s dev); lastLum := v |} s).

Definition set_lastRgb (dev : string) (v : Z) : Async State unit :=
  modify (fun s =>
    with_cache dev {| lastRgb := v; lastLum := lastLum (caches s dev) |} s).

(** ** [validateDevices] *)

(** [!v] for an optional string: absent or empty. *)
Definition falsy (v : option string) : bool :=
  match v with
  | None => true
  | Some s => String.eqb s EmptyString
  end.

Definition dquote : string := String (ascii_of_nat 34) EmptyString.

(** The [for] loop of [validateDevices], [seen] being the set of ids met so
    far; [None] when the loop ends without throwing. *)
Fixpoint validate_loop (seen : list string)
    (ds : list Config.MerossDeviceConfig) : option JsError :=
  match ds with
  | [] => None
  | d :: rest =>
      if falsy (Config.id d) || falsy (Config.name d)
         || falsy (Config.ip d) || falsy (Config.key d)
      then Some (Error "Config error: each device requires id, name, ip, key")
      else if existsb (String.eqb (template (Config.id d))) seen
      then Some (Error ("Config error: duplicate device id " ++ dquote
                          ++ template (Config.id d) ++ dquote))
      else validate_loop (template (Config.id d) :: seen) rest
  end.

(** [validateDevices]; the error it throws is the [Rejected] case. *)
Definition validateDevices (config : Config.MerossPlatformConfig)
  : Outcome (list Config.MerossDeviceConfig) :=
  match Config.devices config with
  | None | Some [] =>
      Rejected (Error "Config error: devices[] is required and must contain at least one device")
  | Some ds =>
      match validate_loop [] ds with
      | Some e => Rejected e
      | None => Fulfilled ds
      end
  end.

(** ** The command handlers of one device *)

(** The fields of [data.request] the handlers read, each already through
    [Number(...)]; [None] when the field is [undefined] or [null]. *)
Record Request : Type := {
  level : option float;
  newLevel : option float;
  hue : option float;
  saturation : option float
}.

(** [request] is [None] when [data.request] is [undefined] or [null]. *)
Record CommandData : Type := { request : option Request }.

(** [Number(d.channel ?? 0)] *)
Definition device_channel (d : Config.MerossDeviceConfig) : Z :=
  match Config.channel d with Some c => c | None => 0 end.

Definition device_id (d : Config.MerossDeviceConfig) : string :=
  template (Config.id d).

Definition device_ip (d : Config.MerossDeviceConfig) : string :=
  template (Config.ip d).

Definition device_key (d : Config.MerossDeviceConfig) : string :=
  template (Config.key d).

(** [Number(data.request?.level ?? data.request?.newLevel ?? NaN)] *)
Definition request_level (data : CommandData) : float :=
  match request data with
  | None => nan
  | Some r =>
      match level r with
      | Some v => v
      | None => match newLevel r with Some v => v | None => nan end
      end
  end.

(** [Number(data.request?.hue ?? NaN)] *)
Definition request_hue (data : CommandData) : float :=
  match request data with
  | None => nan
  | Some r => match hue r with Some v => v | None => nan end
  end.

(** [Number(data.request?.saturation ?? NaN)] *)
Definition request_saturation (data : CommandData) : float :=
  match request data with
  | None => nan
  | Some r => match saturation r with Some v => v | None => nan end
  end.

Definition on (env : Env) (d : Config.MerossDeviceConfig) : Async State unit :=
  _ <- liftNet (merossToggleX env (device_ip d) (device_key d)
                              (device_channel d) true) ;;
  ret tt.

Definition off (env : Env) (d : Config.MerossDeviceConfig) : Async State unit :=
  _ <- liftNet (merossToggleX env (device_ip d) (device_key d)
                              (device_channel d) false) ;;
  ret tt.

(** The call [merossSetRgbAndBrightness(d.ip, d.key, channel, lastRgb,
    lastLum)]: the two variables are read when the call is made. *)
Definition send_light (env : Env) (d : Config.MerossDeviceConfig)
  : Async State unit :=
  c <- read_cache (device_id d) ;;
  _ <- liftNet (merossSetRgbAndBrightness env (device_ip d) (device_key d)
                  (device_channel d) (lastRgb c) (lastLum c)) ;;
  ret tt.

(** The Light POST that [send_light] issues in state [s]. *)
Definition light_post (env : Env) (d : Config.MerossDeviceConfig) (s : State)
  : HttpPost :=
  let c := caches s (device_id d) in
  post_of env (List.length (net s)) (device_ip d) (device_key d)
    "Appliance.Control.Light" SET
    (LightPayload (Some (ushr0 (lastRgb c))) 5
       (Math_max 0 (Math_min 100 (Math_round (lastLum c))))
       (device_channel d))
    default_timeoutMs.

(** The ToggleX POST that turns the device on, issued in state [s]. *)
Definition power_on_post (env : Env) (d : Config.MerossDeviceConfig) (s : State)
  : HttpPost :=
  post_of env (List.length (net s)) (device_ip d) (device_key d)
    "Appliance.Control.ToggleX" SET
    (TogglexPayload (device_channel d) 1) default_timeoutMs.

(** The state after a handler of device [d] wrote [c] into the device's
    cache and the POST [post] was issued. *)
Definition after (d : Config.MerossDeviceConfig) (c : Cache) (post : HttpPost)
    (s : State) : State :=
  with_net (net s ++ [post])%list (with_cache (device_id d) c s).

(** The brightness of a level: [Math.round((clamp(raw, 0, 254) / 254) * 100)] *)
Definition level_percent (raw : float) : float :=
  Math_round (clamp raw 0 254 / 254 * 100)%float.

Definition moveToLevel (env : Env) (d : Config.MerossDeviceConfig)
    (data : CommandData) : Async State unit :=
  let raw := request_level data in
  if negb (Number_isFinite raw) then ret tt
  else
    _ <- set_lastLum (device_id d) (level_percent raw) ;;
    send_light env d.

Definition moveToLevelWithOnOff (env : Env) (d : Config.MerossDeviceConfig)
    (data : CommandData) : Async State unit :=
  let raw := request_level data in
  if negb (Number_isFinite raw) then ret tt
  else
    _ <- set_lastLum (device_id d) (level_percent raw) ;;
    c <- read_cache (device_id d) ;;
    _ <- (if (0 <? lastLum c)%float
          then _ <- liftNet (merossToggleX env (device_ip d) (device_key d)
                                           (device_channel d) true) ;;
               ret tt
          else ret tt) ;;
    send_light env d.

Definition moveToHueAndSaturation (env : Env) (d : Config.MerossDeviceConfig)
    (data : CommandData) : Async State unit :=
  let hue := request_hue data in
  let sat := request_saturation data in
  if negb (Number_isFinite hue) || negb (Number_isFinite sat) then ret tt
  else
    _ <- set_lastRgb (device_id d) (hsvToRgbInt hue sat) ;;
    send_light env d.

(** The XY colour command is only logged. *)
Definition moveToColor (env : Env) (d : Config.MerossDeviceConfig)
    (data : CommandData) : Async State unit :=
  ret tt.

(** The handlers of a device, in the order of the [addCommandHandler]
    calls. *)
Definition commandHandlers (env : Env) (d : Config.MerossDeviceConfig)
  : list (string * (CommandData -> Async State unit)) :=
  [ ("on", fun _ => on env d);
    ("off", fun _ => off env d);
    ("moveToLevel", moveToLevel env d);
    ("moveToLevelWithOnOff", moveToLevelWithOnOff env d);
    ("moveToHueAndSaturation", moveToHueAndSaturation env d);
    ("moveToColor", moveToColor env d) ].

Fixpoint lookup_handler {H : Type} (name : string) (table : list (string * H))
  : option H :=
  match table with
  | [] => None
  | (n, h) :: rest => if String.eqb name n then Some h else lookup_handler name rest
  end.

(** The host invoking the command [name] on the endpoint of device [d]; a
    command without a handler does nothing here. *)
Definition invoke (env : Env) (d : Config.MerossDeviceConfig) (name : string)
    (data : CommandData) : Async State unit :=
  match lookup_handler name (commandHandlers env d) with
  | Some h => h data
  | None => ret tt
  end.

(** The cached colour is a packed 24-bit value. *)
Definition packed (c : Cache) : Prop := 0 <= lastRgb c < 2 ^ 24.

(** What a handler of device [d] may do to the caches: the other devices'
    caches stay, and the cached colour of [d] stays a packed 24-bit value. *)
Definition keeps_caches (d : Config.MerossDeviceConfig)
    (h : CommandData -> Async State unit) : Prop :=
  forall (data : CommandData) (s : State),
    (forall dev, dev <> device_id d -> caches (snd (h data s)) dev = caches s dev)
    /\ (packed (caches s (device_id d)) ->
        packed (caches (snd (h data s)) (device_id d))).

(** ** [discoverDevices] *)

Definition endpoint_of (d : Config.MerossDeviceConfig) : Endpoint :=
  {| endpoint_id := device_id d;
     deviceName := template (Config.name d);
     serialNumber := "SN-" ++ device_id d |}.

(** [await this.registerDevice(light)] *)
Definition registerDevice (env : Env) (e : Endpoint) : Async State unit :=
  match host_registerDevice env (endpoint_id e) with
  | Some err => throw err
  | None => modify (with_endpoint e)
  end.

(** The registration loop: each device gets its own cache, then its endpoint
    is registered. *)
Fixpoint register_all (env : Env) (ds : list Config.MerossDeviceConfig)
  : Async State unit :=
  match ds with
  | [] => ret tt
  | d :: rest =>
      _ <- modify (with_cache (device_id d) initial_cache) ;;
      _ <- registerDevice env (endpoint_of d) ;;
      register_all env rest
  end.

Definition discoverDevices (env : Env) (config : Config.MerossPlatformConfig)
  : Async State unit :=
  devices <- settle (validateDevices config) ;;
  register_all env devices.

(** [onStart]: the host is awaited, then the devices are discovered. *)
Definition onStart (env : Env) (config : Config.MerossPlatformConfig)
  : Async State unit :=
  discoverDevices env config.

(** A device entry lacks one of the four required fields. *)
Definition incomplete (d : Config.MerossDeviceConfig) : Prop :=
  Config.id d = None \/ Config.name d = None
  \/ Config.ip d = None \/ Config.key d = None.

(** The brightness of an integer level in exact arithmetic:
    [round (c / 254 * 100)], a half rounding up. *)
Definition percent_of_level (c : Z) : Z :=
  Qround (inject_Z c / 254 * 100)%Q.

(** One level of the comparison of the code with the exact brightness: the
    handler's conversion, the normalisation of the luminance in
    [merossSetRgbAndBrightness], and the test [lastLum > 0]. *)
Definition level_point_ok (c : Z) : bool :=
  let p := Z2f (percent_of_level c) in
  PrimFloat.Leibniz.eqb (Math_round (Z2f c / 254 * 100)%float) p
  && PrimFloat.Leibniz.eqb (Math_max 0 (Math_min 100 (Math_round p))) p
  && Bool.eqb (0 <? p)%float (0 <? percent_of_level c)%Z.

End Platform.

(* ================================================================== *)
(** * Concrete worlds and devices, for the examples *)
(* ================================================================== *)

Module Demo.
Import MerossHttp.

Local Open Scope string_scope.

(** A parser that knows the three literals only. *)
Definition parse_literal (s : string) : option JSON :=
  if String.eqb s "null" then Some JNull
  else if String.eqb s "true" then Some (JBool true)
  else if String.eqb s "false" then Some (JBool false)
  else None.

(** A world whose [n]-th request is answered by [answers n]. *)
Definition world (answers : nat -> FetchResult) : Env :=
  {| random_source := fun n i => Z.of_nat (17 * n + i);
     Date_now := fun n => 1700000000000 + Z.of_nat n;
     fetch := fun n _ => answers n;
     JSON_parse := parse_literal;
     host_registerDevice := fun _ => None |}.

Definition always (r : FetchResult) : nat -> FetchResult := fun _ => r.

Definition bulb : Config.MerossDeviceConfig :=
  {| Config.id := Some "bulb1";
     Config.name := Some "Desk";
     Config.ip := Some "192.168.1.20";
     Config.key := Some "k";
     Config.channel := None |}.

Definition start : Platform.State :=
  {| Platform.net := [];
     Platform.caches := fun _ => Platform.initial_cache;
     Platform.registered := [] |}.

Definition level_request (v : float) : Platform.CommandData :=
  {| Platform.request :=
       Some {| Platform.level := Some v; Platform.newLevel := None;
               Platform.hue := None; Platform.saturation := None |} |}.

Definition color_request (h s : float) : Platform.CommandData :=
  {| Platform.request :=
       Some {| Platform.level := None; Platform.newLevel := None;
               Platform.hue := Some h; Platform.saturation := Some s |} |}.

(** The same device listed twice. *)
Definition listed_twice : Config.MerossPlatformConfig :=
  {| Config.devices := Some [bulb; bulb] |}.

(** The device answers every request with status 200 and an empty body. *)
Definition quiet : Env :=
  world (always (FetchResponse 200 (Fulfilled EmptyString))).

(** The device never answers: every request is aborted by its timer. *)
Definition silent : Env := world (always (FetchRejected AbortError)).

Definition empty_request : Platform.CommandData :=
  {| Platform.request := None |}.

End Demo.

(* ================================================================== *)
(** * The single-outlet version of the platform module *)
(* ================================================================== *)

Module Outlet.
Import JS Text MerossHttp.

Local Open Scope string_scope.

(** The plugin settings.  [channel] is [Some] only when
    [typeof cfg.channel === 'number']. *)
Record MerossPlatformConfig : Type := {
  ip : option string;
  key : option string;
  name : option string;
  channel : option Z
}.

(** The fields the constructor sets. *)
Record TemplatePlatform : Type := {
  merossIp : option string;
  merossKey : option string;
  deviceName : string;
  platform_channel : Z
}.

(** The constructor: [cfg.name ?? 'Meross Light'] and
    [typeof cfg.channel === 'number' ? cfg.channel : 0]. *)
Definition construct (cfg : MerossPlatformConfig) : TemplatePlatform :=
  {| merossIp := ip cfg;
     merossKey := key cfg;
     deviceName := match name cfg with Some n => n | None => "Meross Light" end;
     platform_channel := match channel cfg with Some c => c | None => 0 end |}.

(** [!v]: absent or empty. *)
Definition unset (v : option string) : bool :=
  match v with
  | None => true
  | Some s => String.eqb s EmptyString
  end.

(** [createHash('md5').update(input, 'utf8').digest('hex')] *)
Definition md5 (input : string) : string := hex (Md5.digest (utf8 input)).

(** One [fetch(url, { method: 'POST', headers, body })]: no abort signal. *)
Record Post : Type := { post_url : string; post_body : MerossRequest }.

(** The outlet given to the host: [{ id: 'meross1' }], the device name and
    the serial number. *)
Record Outlet : Type := {
  outlet_id : string;
  outlet_name : string;
  outlet_serial : string
}.

(** What the platform has done: requests posted and outlets registered. *)
Record State : Type := { posted : list Post; outlets : list Outlet }.

(** [merossToggle]: [source] and [now_ms] are the random source and the
    clock of the call, [reply] what [fetch] gives back.  The body text is
    read with [res.text().catch(() => '')] and only logged, as is the
    status. *)
Definition merossToggle (source : nat -> Z) (now_ms : Z) (reply : FetchResult)
    (p : TemplatePlatform) (on : bool) : Async State unit :=
  if unset (merossIp p) || unset (merossKey p) then ret tt
  else
    let messageId := hex (randomBytes source 16) in
    let timestamp := now_ms / 1000 in
    let sign :=
      md5 (messageId ++ template (merossKey p) ++ Number_toString timestamp) in
    let body :=
      {| header := {| from := "http://" ++ template (merossIp p) ++ "/config";
                      messageId := messageId;
                      method := SET;
                      namespace := "Appliance.Control.ToggleX";
                      payloadVersion := 1;
                      timestamp := timestamp;
                      sign := sign |};
         payload := TogglexPayload (platform_channel p) (if on then 1 else 0) |} in
    fun s =>
      let s' := {| posted := (posted s
                     ++ [{| post_url := "http://" ++ template (merossIp p) ++ "/config";
                            post_body := body |}])%list;
                   outlets := outlets s |} in
      match reply with
      | FetchRejected e => (Rejected e, s')
      | FetchResponse _ _ => (Fulfilled tt, s')
      end.

(** [discoverDevices]: one outlet, registered with the host
    ([host_refuses] is the error of [registerDevice], if any). *)
Definition discoverDevices (host_refuses : option JsError) (p : TemplatePlatform)
  : Async State unit :=
  match host_refuses with
  | Some e => throw e
  | None =>
      modify (fun s =>
        {| posted := posted s;
           outlets := (outlets s
                        ++ [{| outlet_id := "meross1";
                               outlet_name := deviceName p;
                               outlet_serial := "MEROSS-SN-LOCAL" |}])%list |})
  end.

(** [onStart]: discovery is skipped when the ip or the key is not set. *)
Definition onStart (host_refuses : option JsError) (p : TemplatePlatform)
  : Async State unit :=
  if unset (merossIp p) || unset (merossKey p) then ret tt
  else discoverDevices host_refuses p.

End Outlet.

(* ================================================================== *)
(** * Predicates on requests and configurations *)
(* ================================================================== *)

Module Facts.
Import JS Text MerossHttp Platform.

Local Open Scope string_scope.

(** A device entry with its four required fields set and not empty. *)
Definition complete (d : Config.MerossDeviceConfig) : Prop :=
  falsy (Config.id d) = false /\ falsy (Config.name d) = false
  /\ falsy (Config.ip d) = false /\ falsy (Config.key d) = false.

(** A Number that is NaN or lies between 0 and [hi]. *)
Definition nan_or_within (hi x : float) : Prop :=
  is_nan x = true \/ ((0 <=? x)%float = true /\ (x <=? hi)%float = true).

(** The payload is one of the two the handlers of a device on channel
    [ch] send. *)
Definition handler_payload (ch : Z) (ns : string) (p : Payload) : Prop :=
  (ns = "Appliance.Control.ToggleX"
   /\ exists onoff, p = TogglexPayload ch onoff /\ (onoff = 0 \/ onoff = 1))
  \/ (ns = "Appliance.Control.Light"
      /\ exists rgb lum, p = LightPayload (Some rgb) 5 lum ch
                         /\ 0 <= rgb < 2 ^ 32 /\ nan_or_within 100 lum).

(** A POST as a handler of device [d] issues it: to the device's address,
    with a [SET] envelope that names that address, carries a message id of
    32 characters and the signature of its own message id and timestamp
    under the device's key, and the default timeout. *)
Definition device_post (d : Config.MerossDeviceConfig) (post : HttpPost) : Prop :=
  let h := header (body post) in
  url post = "http://" ++ device_ip d ++ "/config"
  /\ from h = url post
  /\ method h = SET
  /\ payloadVersion h = 1
  /\ String.length (messageId h) = 32%nat
  /\ sign h = createMerossSign (messageId h) (device_key d) (timestamp h)
  /\ timeoutMs post = 4000
  /\ handler_payload (device_channel d) (namespace h) (payload (body post)).

(** What a handler of device [d] may put on the network: at most two POSTs, each a request
    of the device; nothing is registered or unregistered. *)
Definition posts_for_device (d : Config.MerossDeviceConfig)
    (h : CommandData -> Async State unit) : Prop :=
  forall (data : CommandData) (s : State),
    exists posts : list HttpPost,
      net (snd (h data s)) = (net s ++ posts)%list
      /\ (List.length posts <= 2)%nat
      /\ Forall (device_post d) posts
      /\ registered (snd (h data s)) = registered s.

(** One level of the brightness conversion against its closed form. *)
Definition percent_closed_ok (c : Z) : bool :=
  Z.eqb (percent_of_level c) ((200 * c + 254) / 508).

(** A percentage through the luminance normalisation of the Light
    commands. *)
Definition percent_point_ok (p : Z) : bool :=
  PrimFloat.Leibniz.eqb (Math_max 0 (Math_min 100 (Math_round (Z2f p)))) (Z2f p).

(** One hue of the grid: without saturation the colour is white, and with
    any hue the full turn gives the colour of hue 0. *)
Definition hue_landmarks_ok (z : Z) : bool :=
  Z.eqb (Color.hsvToRgbInt (Z2f z) 0) 0xffffff
  && Z.eqb (Color.hsvToRgbInt 254 (Z2f z)) (Color.hsvToRgbInt 0 (Z2f z)).

End Facts.

(* ================================================================== *)
(** * More concrete worlds and configurations *)
(* ================================================================== *)

Module Demo2.
Import MerossHttp.

Local Open Scope string_scope.

Definition lamp : Config.MerossDeviceConfig :=
  {| Config.id := Some "lamp2";
     Config.name := Some "Shelf";
     Config.ip := Some "192.168.1.21";
     Config.key := Some "s3";
     Config.channel := Some 1 |}.

Definition two_devices : Config.MerossPlatformConfig :=
  {| Config.devices := Some [Demo.bulb; lamp] |}.

(** A host that refuses the endpoint [lamp2]. *)
Definition refusing : Env :=
  {| random_source := fun n i => Z.of_nat (17 * n + i);
     Date_now := fun n => 1700000000000 + Z.of_nat n;
     fetch := fun _ _ => FetchResponse 200 (Fulfilled EmptyString);
     JSON_parse := Demo.parse_literal;
     host_registerDevice :=
       fun i => if String.eqb i "lamp2" then Some (Error "refused") else None |}.

Definition outlet : Outlet.TemplatePlatform :=
  Outlet.construct {| Outlet.ip := Some "192.168.1.30";
                      Outlet.key := Some "k";
                      Outlet.name := None;
                      Outlet.channel := None |}.

Definition unconfigured : Outlet.TemplatePlatform :=
  Outlet.construct {| Outlet.ip := Some "192.168.1.30";
                      Outlet.key := None;
                      Outlet.name := Some "Plug";
                      Outlet.channel := Some 2 |}.

Definition idle : Outlet.State := {| Outlet.posted := []; Outlet.outlets := [] |}.

End Demo2.

(* ================================================================== *)
(** * Properties *)
(* ================================================================== *)

(** ** Finite ranges *)

Lemma zrange_In (lo : Z) (n : nat) (z : Z) :
  lo <= z < lo + Z.of_nat n -> In z (Range.zrange lo n).
Proof.
  intros Hz. unfold Range.zrange. apply in_map_iff.
  exists (Z.to_nat (z - lo)). split; [lia|].
  apply in_seq. lia.
Qed.

Lemma zrange_forallb (P : Z -> bool) (lo : Z) (n : nat) :
  forallb P (Range.zrange lo n) = true ->
  forall z, lo <= z < lo + Z.of_nat n -> P z = true.
Proof.
  intros Hall z Hz. rewrite forallb_forall in Hall.
  apply Hall, zrange_In, Hz.
Qed.

(** ** The Number operations on the usual corner cases *)

Lemma Math_round_examples :
  JS.Math_round 0.5 = 1%float
  /\ JS.Math_round (-0.5) = (-0)%float
  /\ JS.Math_round 2.5 = 3%float
  /\ JS.Math_round (-2.5) = (-2)%float
  /\ JS.Math_round 0x1.fffffffffffffp-2 = 0%float
  /\ JS.Math_round 127.5 = 128%float
  /\ JS.Math_round (-0.25) = (-0)%float
  /\ JS.Math_round 4503599627370497 = 4503599627370497%float
  /\ JS.Math_round nan = nan
  /\ JS.Math_round infinity = infinity.
Proof. repeat split; vm_compute; reflexivity. Qed.

Lemma Math_max_min_examples :
  JS.Math_max 0 (-0) = 0%float
  /\ JS.Math_max (-0) 0 = 0%float
  /\ JS.Math_min 0 (-0) = (-0)%float
  /\ JS.Math_max nan 1 = nan
  /\ JS.Math_min 1 nan = nan
  /\ JS.Math_max 0 (JS.Math_min 254 300) = 254%float
  /\ JS.Math_max 0 (JS.Math_min 254 (-7)) = 0%float
  /\ JS.Math_max 0 (JS.Math_min 254 infinity) = 254%float.
Proof. repeat split; vm_compute; reflexivity. Qed.

Lemma rem_examples :
  JS.rem 5.5 2 = 1.5%float
  /\ JS.rem (-5.5) 2 = (-1.5)%float
  /\ JS.rem 6 2 = 0%float
  /\ JS.rem 5 infinity = 5%float
  /\ JS.rem 5 0 = nan
  /\ JS.rem infinity 2 = nan.
Proof. repeat split; vm_compute; reflexivity. Qed.

Lemma ToInt32_examples :
  JS.ToInt32 4294967295 = -1
  /\ JS.ToInt32 2147483648 = -2147483648
  /\ JS.ToInt32 (-1.5) = -1
  /\ JS.ToInt32 255.75 = 255
  /\ JS.ToInt32 nan = 0
  /\ JS.ToInt32 infinity = 0
  /\ JS.shl 255 24 = -16777216
  /\ JS.ushr0 (-1) = 4294967295.
Proof. repeat split; vm_compute; reflexivity. Qed.

(** ** Bytes through [rgbToInt] *)

Lemma channel_grid_checked :
  forallb Color.channel_point_ok (Range.zrange 0 256) = true.
Proof. vm_cast_no_check (eq_refl true). Qed.

Lemma channel_checked (z : Z) :
  0 <= z <= 255 ->
  JS.ToInt32 (JS.Math_max 0 (JS.Math_min 255 (JS.Math_round (JS.Z2f z)))) = z.
Proof.
  intros Hz. apply Z.eqb_eq.
  apply (zrange_forallb Color.channel_point_ok 0 256 channel_grid_checked).
  lia.
Qed.

(** ** 32-bit integer arithmetic *)

Lemma int32_small (z : Z) : - 2 ^ 31 <= z < 2 ^ 31 -> JS.int32 z = z.
Proof.
  intros Hz. unfold JS.int32.
  rewrite Z.mod_small; lia.
Qed.

Lemma land_shiftl_low (a k x : Z) :
  0 <= k -> 0 <= x < 2 ^ k -> Z.land (Z.shiftl a k) x = 0.
Proof.
  intros Hk Hx. apply Z.bits_inj'. intros n Hn.
  rewrite Z.land_spec, Z.bits_0.
  destruct (Z.ltb_spec n k) as [Hlt | Hge].
  - rewrite Z.shiftl_spec_low by assumption. reflexivity.
  - assert (Hbit : Z.testbit x n = false).
    { destruct (Z.eq_dec x 0) as [-> | Hnz]; [apply Z.bits_0|].
      apply Z.bits_above_log2; [lia|].
      apply Z.lt_le_trans with k; [|assumption].
      apply Z.log2_lt_pow2; lia. }
    rewrite Hbit. apply andb_false_r.
Qed.

Lemma lor_shiftl_add (a k x : Z) :
  0 <= k -> 0 <= x < 2 ^ k -> Z.lor (Z.shiftl a k) x = a * 2 ^ k + x.
Proof.
  intros Hk Hx.
  pose proof (land_shiftl_low a k x Hk Hx) as Hdisj.
  rewrite <- Z.lxor_lor by assumption.
  rewrite <- Z.add_nocarry_lxor by assumption.
  rewrite Z.shiftl_mul_pow2 by assumption. reflexivity.
Qed.

Lemma pack_bytes (r g b : Z) :
  0 <= r <= 255 -> 0 <= g <= 255 -> 0 <= b <= 255 ->
  JS.bor (JS.bor (JS.int32 (Z.shiftl r 16)) (JS.int32 (Z.shiftl g 8))) b
  = Color.packRgb (r, g, b).
Proof.
  intros Hr Hg Hb. unfold Color.packRgb, JS.bor.
  assert (Er : Z.shiftl r 16 = r * 65536)
    by (rewrite Z.shiftl_mul_pow2 by lia; reflexivity).
  assert (Eg : Z.shiftl g 8 = g * 256)
    by (rewrite Z.shiftl_mul_pow2 by lia; reflexivity).
  assert (E1 : Z.lor (Z.shiftl r 16) (Z.shiftl g 8) = r * 65536 + g * 256).
  { rewrite Eg. rewrite lor_shiftl_add by lia.
    change (2 ^ 16) with 65536. lia. }
  assert (E2 : Z.lor (r * 65536 + g * 256) b = r * 65536 + g * 256 + b).
  { assert (Es : r * 65536 + g * 256 = Z.shiftl (r * 256 + g) 8)
      by (rewrite Z.shiftl_mul_pow2 by lia; change (2 ^ 8) with 256; lia).
    rewrite Es at 1. rewrite lor_shiftl_add by lia.
    change (2 ^ 8) with 256. lia. }
  rewrite (int32_small (Z.shiftl r 16)) by lia.
  rewrite (int32_small (Z.shiftl g 8)) by lia.
  rewrite (int32_small (Z.shiftl r 16)) by lia.
  rewrite (int32_small (Z.shiftl g 8)) by lia.
  rewrite E1. rewrite (int32_small (r * 65536 + g * 256)) by lia.
  rewrite (int32_small (r * 65536 + g * 256)) by lia.
  rewrite (int32_small b) by lia.
  rewrite E2. apply int32_small. lia.
Qed.

Lemma unpack_pack (r g b : Z) :
  0 <= r <= 255 -> 0 <= g <= 255 -> 0 <= b <= 255 ->
  Color.unpackRgb (Color.packRgb (r, g, b)) = (r, g, b).
Proof.
  intros Hr Hg Hb. unfold Color.unpackRgb, Color.packRgb.
  change 255 with (Z.ones 8).
  rewrite !Z.land_ones by lia. rewrite !Z.shiftr_div_pow2 by lia.
  change (2 ^ 16) with 65536. change (2 ^ 8) with 256.
  repeat f_equal; Z.to_euclidean_division_equations; lia.
Qed.

(** ** Bytes through [rgbToInt], for every Number *)

Lemma digits2_pos_bound (m : positive) : Zpos m < 2 ^ Zpos (digits2_pos m).
Proof.
  induction m as [m IH | m IH |]; cbn [digits2_pos].
  - rewrite Pos2Z.inj_succ, Z.pow_succ_r by lia. lia.
  - rewrite Pos2Z.inj_succ, Z.pow_succ_r by lia. lia.
  - reflexivity.
Qed.

Lemma valid_mantissa_bound (s : bool) (m : positive) (e : Z) :
  valid_binary (S754_finite s m e) = true -> Zpos m < 2 ^ 53.
Proof.
  cbn [valid_binary]. unfold bounded, canonical_mantissa, fexp.
  intros H. apply andb_true_iff in H. destruct H as [H _].
  apply Z.eqb_eq in H.
  assert (Hd : Zpos (digits2_pos m) <= 53) by (unfold FloatOps.prec in H; lia).
  apply Z.lt_le_trans with (2 ^ Zpos (digits2_pos m)).
  - apply digits2_pos_bound.
  - apply Z.pow_le_mono_r; lia.
Qed.

(** A Number strictly above 0 and not above 255 has its integer part in
    [0,255]. *)
Lemma truncZ_between (y : float) :
  (0 <? y)%float = true -> (255 <? y)%float = false ->
  0 <= JS.truncZ y <= 255.
Proof.
  intros Hpos Hmax.
  rewrite FloatAxioms.ltb_spec in Hpos, Hmax.
  pose proof (FloatAxioms.Prim2SF_valid y) as Hvalid.
  unfold JS.truncZ.
  change (Prim2SF 0) with (S754_zero false) in Hpos.
  change (Prim2SF 255) with (S754_finite false 8972014882652160 (-45)) in Hmax.
  destruct (Prim2SF y) as [s | s | | s m e].
  - discriminate.
  - destruct s; discriminate.
  - discriminate.
  - destruct s; [discriminate|].
    pose proof (valid_mantissa_bound _ _ _ Hvalid) as Hm.
    clear Hvalid Hpos.
    unfold SFltb, SFcompare in Hmax.
    destruct (Z.compare_spec (-45) e) as [He | He | He]; [| discriminate |].
    + subst e. rewrite Pos.compare_cont_spec in Hmax. cbn [Pos.switch_Eq] in Hmax.
      assert (Hle : Zpos m <= 8972014882652160).
      { destruct (8972014882652160 ?= m)%positive eqn:Hc; [| discriminate |].
        - apply Pos.compare_eq in Hc. subst m. apply Z.le_refl.
        - apply Pos.compare_gt_iff in Hc. apply Z.lt_le_incl. exact Hc. }
      clear Hmax.
      rewrite Z.shiftl_div_pow2 by lia. change (2 ^ (- -45)) with 35184372088832.
      split; [apply Z.div_pos; lia|].
      apply Z.div_le_upper_bound; lia. 
    + clear Hmax. destruct e as [|e|e]; try lia.
      rewrite Z.shiftl_div_pow2 by lia.
      assert (Hpow : 2 ^ 46 <= 2 ^ (- Z.neg e)) by (apply Z.pow_le_mono_r; lia).
      split; [apply Z.div_pos; lia|].
      apply Z.div_le_upper_bound; [lia|].
      change (2 ^ 53) with 9007199254740992 in Hm.
      change (2 ^ 46) with 70368744177664 in Hpow. nia.
Qed.

Lemma norm255_range (y : float) :
  0 <= JS.ToInt32 (JS.Math_max 0 (JS.Math_min 255 y)) <= 255.
Proof.
  assert (Hsmall : forall t, 0 <= JS.truncZ t <= 255 -> 0 <= JS.ToInt32 t <= 255).
  { intros t Ht. unfold JS.ToInt32. rewrite int32_small; lia. }
  unfold JS.Math_min.
  change (is_nan 255) with false. change (get_sign 255) with false.
  cbn [orb].
  destruct (is_nan y) eqn:Hnan; [vm_compute; split; discriminate|].
  assert (Hy : forall u, (255 <? u)%float = false -> is_nan u = false ->
                0 <= JS.ToInt32 (JS.Math_max 0 u) <= 255).
  { intros u Hu Hn. unfold JS.Math_max.
    change (is_nan 0) with false. change (get_sign 0) with false.
    cbn [orb]. rewrite Hn.
    destruct (0 <? u)%float eqn:H0.
    - apply Hsmall, truncZ_between; assumption.
    - destruct (u <? 0)%float; vm_compute; split; discriminate. }
  destruct (255 <? y)%float eqn:Hlt.
  - vm_compute; split; discriminate.
  - destruct (y <? 255)%float; apply Hy; assumption.
Qed.

(** For all Numbers, NaN and the infinities included, [rgbToInt] packs three
    bytes. *)
Lemma rgbToInt_range (r g b : float) : 0 <= Color.rgbToInt r g b < 2 ^ 24.
Proof.
  unfold Color.rgbToInt, JS.shl. cbv zeta.
  pose proof (norm255_range (JS.Math_round r)) as Hr.
  pose proof (norm255_range (JS.Math_round g)) as Hg.
  pose proof (norm255_range (JS.Math_round b)) as Hb.
  set (R := JS.ToInt32 _) in Hr |- *. 
  set (G := JS.ToInt32 (JS.Math_max 0 (JS.Math_min 255 (JS.Math_round g)))) in Hg |- *.
  set (B := JS.ToInt32 (JS.Math_max 0 (JS.Math_min 255 (JS.Math_round b)))) in Hb |- *.
  clearbody R G B.
  rewrite (pack_bytes R G B Hr Hg Hb). unfold Color.packRgb.
  change (2 ^ 24) with 16777216. lia.
Qed.

Lemma rgbToInt_packs (r g b : Z) :
  0 <= r <= 255 -> 0 <= g <= 255 -> 0 <= b <= 255 ->
  Color.rgbToInt (JS.Z2f r) (JS.Z2f g) (JS.Z2f b) = Color.packRgb (r, g, b).
Proof.
  intros Hr Hg Hb. unfold Color.rgbToInt, JS.shl. cbv zeta.
  rewrite !channel_checked by assumption.
  apply pack_bytes; assumption.
Qed.

(** C6. Packing three integer channels in [0,255] with [rgbToInt] and reading
    the 24-bit value back (high byte red, middle byte green, low byte blue)
    gives the three channels again; the packed value is [0xRRGGBB]. *)
Theorem rgbToInt_unpack_roundtrip (r g b : Z) :
  0 <= r <= 255 -> 0 <= g <= 255 -> 0 <= b <= 255 ->
  Color.rgbToInt (JS.Z2f r) (JS.Z2f g) (JS.Z2f b) = Color.packRgb (r, g, b)
  /\ Color.unpackRgb (Color.rgbToInt (JS.Z2f r) (JS.Z2f g) (JS.Z2f b)) = (r, g, b).
Proof.
  intros Hr Hg Hb.
  rewrite (rgbToInt_packs r g b Hr Hg Hb).
  split; [reflexivity | apply unpack_pack; assumption].
Qed.

Lemma rgbToInt_unpack_roundtrip_witness :
  Color.unpackRgb (Color.rgbToInt (JS.Z2f 18) (JS.Z2f 52) (JS.Z2f 255))
  = (18, 52, 255).
Proof.
  apply (rgbToInt_unpack_roundtrip 18 52 255); lia.
Defined.

(** ** The colour grid: all 255 x 255 hue and saturation pairs, evaluated *)

Lemma hsvToRgbInt_staged (hue254 sat254 : float) :
  Color.hsvToRgbInt hue254 sat254
  = let h := (Color.clamp hue254 0 254 / 254 * 360)%float in
    let '(r, g, b) :=
      Color.hsv_rounded (JS.rem (h / 60) 2) h
                        (Color.clamp sat254 0 254 / 254)%float in
    Color.rgbToInt r g b.
Proof.
  unfold Color.hsvToRgbInt, Color.hsv_rounded. cbv zeta.
  destruct (_ <? 60)%float; [reflexivity|].
  destruct (_ <? 120)%float; [reflexivity|].
  destruct (_ <? 180)%float; [reflexivity|].
  destruct (_ <? 240)%float; [reflexivity|].
  destruct (_ <? 300)%float; reflexivity.
Qed.

(** The colour computed by the handler is a packed 24-bit value, whatever
    the request holds. *)
Lemma hsvToRgbInt_any_range (hue254 sat254 : float) :
  0 <= Color.hsvToRgbInt hue254 sat254 < 2 ^ 24.
Proof.
  rewrite hsvToRgbInt_staged. cbv zeta.
  destruct (Color.hsv_rounded _ _ _) as [[r g] b].
  apply rgbToInt_range.
Qed.

(** X2. For all Numbers, NaN and the infinities included, [rgbToInt] returns
    an integer of [0, 2^24), and so does [hsvToRgbInt]. *)
Theorem rgbToInt_always_packed (r g b hue254 sat254 : float) :
  0 <= Color.rgbToInt r g b < 2 ^ 24
  /\ 0 <= Color.hsvToRgbInt hue254 sat254 < 2 ^ 24.
Proof.
  split; [apply rgbToInt_range | apply hsvToRgbInt_any_range].
Qed.

Lemma hsv_grid_checked :
  forallb Color.hsv_hue_ok (Range.zrange 0 255) = true.
Proof. vm_cast_no_check (eq_refl true). Qed.

Lemma hsv_point_checked (hue sat : Z) :
  0 <= hue <= 254 -> 0 <= sat <= 254 ->
  exists r g b,
    Color.hsv_reference hue sat = (r, g, b)
    /\ Color.hsvToRgbInt (JS.Z2f hue) (JS.Z2f sat) = Color.packRgb (r, g, b)
    /\ 0 <= r <= 255 /\ 0 <= g <= 255 /\ 0 <= b <= 255.
Proof.
  intros Hh Hs.
  assert (H : Color.hsv_hue_ok hue = true)
    by (apply (zrange_forallb Color.hsv_hue_ok 0 255 hsv_grid_checked); lia).
  unfold Color.hsv_hue_ok in H. cbv zeta in H.
  assert (Hp : Color.hsv_point_ok
                 (JS.rem (Color.clamp (JS.Z2f hue) 0 254 / 254 * 360 / 60) 2)
                 (Color.clamp (JS.Z2f hue) 0 254 / 254 * 360)%float hue sat = true)
    by (apply (zrange_forallb _ 0 255 H); lia).
  clear H Hh Hs. unfold Color.hsv_point_ok in Hp.
  rewrite hsvToRgbInt_staged. cbv zeta.
  destruct (Color.hsv_rounded _ _ _) as [[fr fg] fb].
  destruct (Color.hsv_reference hue sat) as [[r g] b].
  unfold Color.channel_ok in Hp. rewrite !andb_true_iff in Hp.
  destruct Hp as [[[[[Er Eg] Eb] [Hr1 Hr2]] [Hg1 Hg2]] [Hb1 Hb2]].
  apply FloatAxioms.Leibniz.eqb_spec in Er, Eg, Eb.
  apply Z.leb_le in Hr1, Hr2, Hg1, Hg2, Hb1, Hb2.
  subst fr fg fb. exists r, g, b.
  split; [reflexivity|].
  split; [apply rgbToInt_packs; split; assumption|].
  repeat split; assumption.
Qed.

(** C5. For integer hue and saturation in [0,254], [hsvToRgbInt] (binary64
    arithmetic, as the code computes it) returns the packed colour of the
    textbook six-sector conversion computed in exact arithmetic, and each of
    its three channels lies in [0,255].  The conversion is a function of its
    two arguments, so equal inputs give equal outputs. *)
Theorem hsvToRgbInt_is_reference (hue254 sat254 : Z) :
  0 <= hue254 <= 254 -> 0 <= sat254 <= 254 ->
  exists r g b,
    Color.hsv_reference hue254 sat254 = (r, g, b)
    /\ Color.hsvToRgbInt (JS.Z2f hue254) (JS.Z2f sat254) = Color.packRgb (r, g, b)
    /\ Color.unpackRgb (Color.hsvToRgbInt (JS.Z2f hue254) (JS.Z2f sat254)) = (r, g, b)
    /\ 0 <= r <= 255 /\ 0 <= g <= 255 /\ 0 <= b <= 255.
Proof.
  intros Hh Hs.
  destruct (hsv_point_checked hue254 sat254 Hh Hs)
    as [r [g [b [Href [Hcode [Hr [Hg Hb]]]]]]].
  exists r, g, b.
  split; [exact Href|]. split; [exact Hcode|].
  split; [rewrite Hcode; apply unpack_pack; assumption|].
  split; [exact Hr|]. split; [exact Hg | exact Hb].
Qed.

Lemma hsvToRgbInt_is_reference_witness :
  exists r g b,
    Color.hsv_reference 85 254 = (r, g, b)
    /\ Color.hsvToRgbInt (JS.Z2f 85) (JS.Z2f 254) = Color.packRgb (r, g, b)
    /\ Color.unpackRgb (Color.hsvToRgbInt (JS.Z2f 85) (JS.Z2f 254)) = (r, g, b)
    /\ 0 <= r <= 255 /\ 0 <= g <= 255 /\ 0 <= b <= 255.
Proof.
  apply (hsvToRgbInt_is_reference 85 254); lia.
Defined.

(** ** Digests, hexadecimal text and the signature *)

Lemma le_bytes_length (n : nat) (z : Z) : List.length (Md5.le_bytes n z) = n.
Proof. unfold Md5.le_bytes. rewrite length_map. apply length_seq. Qed.

Lemma le_bytes_are_bytes (n : nat) (z : Z) : Forall Text.is_byte (Md5.le_bytes n z).
Proof.
  unfold Md5.le_bytes. apply Forall_forall. intros b Hb.
  apply in_map_iff in Hb. destruct Hb as [i [<- _]].
  unfold Text.is_byte. apply Z.mod_pos_bound. lia.
Qed.

Lemma digest_length (msg : list Z) : List.length (Md5.digest msg) = 16%nat.
Proof.
  unfold Md5.digest.
  destruct (fold_left Md5.process (Md5.blocks (Md5.pad msg)) Md5.init)
    as [[[a b] c] d].
  rewrite !length_app, !le_bytes_length. reflexivity.
Qed.

Lemma digest_are_bytes (msg : list Z) : Forall Text.is_byte (Md5.digest msg).
Proof.
  unfold Md5.digest.
  destruct (fold_left Md5.process (Md5.blocks (Md5.pad msg)) Md5.init)
    as [[[a b] c] d].
  repeat (apply Forall_app; split); apply le_bytes_are_bytes.
Qed.

Lemma randomBytes_length (source : nat -> Z) (n : nat) :
  List.length (MerossHttp.randomBytes source n) = n.
Proof. unfold MerossHttp.randomBytes. rewrite length_map. apply length_seq. Qed.

Lemma randomBytes_are_bytes (source : nat -> Z) (n : nat) :
  Forall Text.is_byte (MerossHttp.randomBytes source n).
Proof.
  unfold MerossHttp.randomBytes. apply Forall_forall. intros b Hb.
  apply in_map_iff in Hb. destruct Hb as [i [<- _]].
  unfold Text.is_byte. apply Z.mod_pos_bound. lia.
Qed.

Lemma hex_length (bytes : list Z) :
  String.length (Text.hex bytes) = (2 * List.length bytes)%nat.
Proof.
  induction bytes as [|b rest IH]; [reflexivity|].
  cbn [Text.hex String.length List.length]. rewrite IH. lia.
Qed.

Lemma hex_digit_lower (n : Z) :
  0 <= n < 16 ->
  Text.is_lower_hex (Text.hex_digit n) = true
  /\ Text.lower_char (Text.hex_digit n) = Text.hex_digit n.
Proof.
  intros Hn.
  assert (H : Text.hex_digit_ok n = true)
    by (apply (zrange_forallb Text.hex_digit_ok 0 16); [reflexivity | lia]).
  unfold Text.hex_digit_ok in H. apply andb_true_iff in H.
  destruct H as [H1 H2]. apply Ascii.eqb_eq in H2. split; assumption.
Qed.

Lemma hex_lower (bytes : list Z) :
  Forall Text.is_byte bytes ->
  Text.lower_hex_text (Text.hex bytes)
  /\ Text.toLowerCase (Text.hex bytes) = Text.hex bytes.
Proof.
  unfold Text.lower_hex_text.
  induction 1 as [|b rest Hb _ [IH1 IH2]]; [split; reflexivity|].
  unfold Text.is_byte in Hb.
  assert (Hhi : 0 <= b / 16 < 16)
    by (split; [apply Z.div_pos; lia | apply Z.div_lt_upper_bound; lia]).
  assert (Hlo : 0 <= b mod 16 < 16) by (apply Z.mod_pos_bound; lia).
  destruct (hex_digit_lower _ Hhi) as [H1 H2].
  destruct (hex_digit_lower _ Hlo) as [H3 H4].
  cbn [Text.hex list_ascii_of_string forallb Text.toLowerCase].
  rewrite H1, H2, H3, H4, IH1, IH2. split; reflexivity.
Qed.

(** The test suite of RFC 1321, and a message of two blocks. *)
Lemma md5_test_suite :
  Text.hex (Md5.digest (Text.utf8 EmptyString)) = "d41d8cd98f00b204e9800998ecf8427e"%string
  /\ Text.hex (Md5.digest (Text.utf8 "a")) = "0cc175b9c0f1b6a831c399e269772661"%string
  /\ Text.hex (Md5.digest (Text.utf8 "abc")) = "900150983cd24fb0d6963f7d28e17f72"%string
  /\ Text.hex (Md5.digest (Text.utf8 "message digest"))
     = "f96b697d7cb7938d525a2f31aaf161d0"%string
  /\ Text.hex (Md5.digest (Text.utf8 "abcdefghijklmnopqrstuvwxyz"))
     = "c3fcd3d76192e4007dfb496cca67e13b"%string
  /\ Text.hex (Md5.digest (Text.utf8
       "12345678901234567890123456789012345678901234567890123456789012345678901234567890"))
     = "57edf4a22be3c955ac49da2e2107b67a"%string.
Proof. repeat split; vm_compute; reflexivity. Qed.

(** C1. The signature is the hexadecimal text of the MD5 digest of the
    message id, the key and the decimal timestamp, concatenated in this order;
    it has 32 characters, all of them lowercase hexadecimal digits, and it is
    the digest given for the example of the specification.  The message id is
    the hexadecimal text of 16 random bytes: 32 lowercase hexadecimal
    characters; the envelope carries that message id and the signature computed
    from it. *)
Theorem createMerossSign_is_md5_hex (messageId key : string) (timestamp : Z) :
  MerossHttp.createMerossSign messageId key timestamp
  = Text.hex (Md5.digest (Text.utf8 (messageId ++ key
                ++ NilZero.string_of_int (Z.to_int timestamp))))
  /\ String.length (MerossHttp.createMerossSign messageId key timestamp) = 32%nat
  /\ Text.lower_hex_text (MerossHttp.createMerossSign messageId key timestamp)
  /\ MerossHttp.createMerossSign "00112233445566778899aabbccddeeff" "k" 1700000000
     = "c7fabf3599be1af177a8695edb743e1a"%string
  /\ (forall source : nat -> Z,
        MerossHttp.createMerossMessageId source
        = Text.hex (MerossHttp.randomBytes source 16)
        /\ List.length (MerossHttp.randomBytes source 16) = 16%nat
        /\ String.length (MerossHttp.createMerossMessageId source) = 32%nat
        /\ Text.lower_hex_text (MerossHttp.createMerossMessageId source))
  /\ (forall source now_ms ip namespace method payload,
        let h := MerossHttp.header
                   (MerossHttp.buildMerossRequest source now_ms ip key
                      namespace method payload) in
        MerossHttp.messageId h = MerossHttp.createMerossMessageId source
        /\ MerossHttp.sign h
           = MerossHttp.createMerossSign (MerossHttp.messageId h) key
               (MerossHttp.timestamp h)).
Proof.
  assert (E : forall m k t,
             MerossHttp.createMerossSign m k t
             = Text.hex (Md5.digest (Text.utf8 (m ++ k ++ JS.Number_toString t)))).
  { intros m k t. unfold MerossHttp.createMerossSign.
    apply hex_lower, digest_are_bytes. }
  split; [apply E|].
  split; [rewrite E, hex_length, digest_length; reflexivity|].
  split; [rewrite E; apply hex_lower, digest_are_bytes|].
  split; [vm_compute; reflexivity|].
  split.
  - intros source. unfold MerossHttp.createMerossMessageId.
    split; [reflexivity|]. split; [apply randomBytes_length|].
    split; [rewrite hex_length, randomBytes_length; reflexivity|].
    apply hex_lower, randomBytes_are_bytes.
  - intros. split; reflexivity.
Qed.

(** ** One request: what is posted and how the promise settles *)

Section Send.
Import MerossHttp.
Local Open Scope string_scope.

Variable env : Env.

Lemma merossPostConfig_run ip key namespace method payload timeoutMs (net : Net) :
  let post := post_of env (List.length net) ip key namespace method payload timeoutMs in
  merossPostConfig env ip key namespace method payload timeoutMs net
  = (settled env (fetch env (List.length net) post), (net ++ [post])%list).
Proof.
  intros post. unfold merossPostConfig, bind, await_fetch, settle, throw, ret.
  fold (post_of env (List.length net) ip key namespace method payload timeoutMs).
  fold post. unfold settled.
  destruct (fetch env (List.length net) post) as [e | status [text | e]];
    cbn [fst snd]; try reflexivity.
  destruct (ok status); cbn [negb]; [|reflexivity].
  destruct (JSON_parse env text); reflexivity.
Qed.

(** C7. Given a response whose body text could be read, the HTTP status
    decides the outcome: outside 200-299 the call is rejected with the error
    [Meross HTTP <status>: <text>], which carries the status and the raw body
    text; inside 200-299 the call is fulfilled, with the raw body text when
    the body is not JSON and with the parsed value when it is.  In each case
    exactly one POST has been issued. *)
Theorem merossPostConfig_status_decides
    ip key namespace method payload timeoutMs (net : Net) status text :
  let post := post_of env (List.length net) ip key namespace method payload timeoutMs in
  fetch env (List.length net) post = FetchResponse status (Fulfilled text) ->
  (ok status = false ->
     merossPostConfig env ip key namespace method payload timeoutMs net
     = (Rejected (Error ("Meross HTTP " ++ JS.Number_toString status
                           ++ ": " ++ text)),
        (net ++ [post])%list))
  /\ (ok status = true -> JSON_parse env text = None ->
        merossPostConfig env ip key namespace method payload timeoutMs net
        = (Fulfilled (RawText text), (net ++ [post])%list))
  /\ (ok status = true -> forall j, JSON_parse env text = Some j ->
        merossPostConfig env ip key namespace method payload timeoutMs net
        = (Fulfilled (Parsed j), (net ++ [post])%list)).
Proof.
  intros post Hfetch. rewrite merossPostConfig_run. fold post.
  rewrite Hfetch. unfold settled.
  split; [|split].
  - intros ->. reflexivity.
  - intros -> ->. reflexivity.
  - intros -> j ->. reflexivity.
Qed.

(** X3. A request that the device does not answer, or whose body cannot be read:
    the call is rejected with the error of [fetch] (the abort of the timer
    included) or of [res.text()], after exactly one POST and without a retry. *)
Theorem merossPostConfig_failure_propagates
    ip key namespace method payload timeoutMs (net : Net) (e : JsError) :
  let post := post_of env (List.length net) ip key namespace method payload timeoutMs in
  fetch env (List.length net) post = FetchRejected e
  \/ (exists status, fetch env (List.length net) post
                     = FetchResponse status (Rejected e)) ->
  merossPostConfig env ip key namespace method payload timeoutMs net
  = (Rejected e, (net ++ [post])%list).
Proof.
  intros post Hfail. rewrite merossPostConfig_run. fold post.
  destruct Hfail as [-> | [status ->]]; reflexivity.
Qed.

End Send.

Lemma merossPostConfig_status_decides_witness :
  MerossHttp.merossPostConfig
    (Demo.world (Demo.always (MerossHttp.FetchResponse 500 (MerossHttp.Fulfilled "busy"%string))))
    "192.168.1.20" "k" "Appliance.Control.ToggleX" MerossHttp.SET
    (MerossHttp.TogglexPayload 0 1) 4000 []
  = (MerossHttp.Rejected (MerossHttp.Error "Meross HTTP 500: busy"),
     [MerossHttp.post_of
        (Demo.world (Demo.always (MerossHttp.FetchResponse 500 (MerossHttp.Fulfilled "busy"%string))))
        0 "192.168.1.20" "k" "Appliance.Control.ToggleX" MerossHttp.SET
        (MerossHttp.TogglexPayload 0 1) 4000])
  /\ MerossHttp.merossPostConfig
       (Demo.world (Demo.always (MerossHttp.FetchResponse 200 (MerossHttp.Fulfilled EmptyString))))
       "192.168.1.20" "k" "Appliance.Control.ToggleX" MerossHttp.SET
       (MerossHttp.TogglexPayload 0 1) 4000 []
     = (MerossHttp.Fulfilled (MerossHttp.RawText EmptyString),
        [MerossHttp.post_of
           (Demo.world (Demo.always (MerossHttp.FetchResponse 200 (MerossHttp.Fulfilled EmptyString))))
           0 "192.168.1.20" "k" "Appliance.Control.ToggleX" MerossHttp.SET
           (MerossHttp.TogglexPayload 0 1) 4000]).
Proof.
  split.
  - exact (proj1 (merossPostConfig_status_decides
                    (Demo.world (Demo.always (MerossHttp.FetchResponse 500 (MerossHttp.Fulfilled "busy"%string))))
                    "192.168.1.20" "k" "Appliance.Control.ToggleX" MerossHttp.SET
                    (MerossHttp.TogglexPayload 0 1) 4000 [] 500 "busy" eq_refl)
                 eq_refl).
  - exact (proj1 (proj2 (merossPostConfig_status_decides
                    (Demo.world (Demo.always (MerossHttp.FetchResponse 200 (MerossHttp.Fulfilled EmptyString))))
                    "192.168.1.20" "k" "Appliance.Control.ToggleX" MerossHttp.SET
                    (MerossHttp.TogglexPayload 0 1) 4000 [] 200 EmptyString eq_refl))
                 eq_refl eq_refl).
Defined.

(** ** The brightness grid: the 255 levels, evaluated *)

Lemma level_grid_checked :
  forallb Platform.level_point_ok (Range.zrange 0 255) = true.
Proof. vm_cast_no_check (eq_refl true). Qed.

Lemma level_checked (c : Z) :
  0 <= c <= 254 ->
  JS.Math_round (JS.Z2f c / 254 * 100)%float = JS.Z2f (Platform.percent_of_level c)
  /\ JS.Math_max 0 (JS.Math_min 100 (JS.Math_round (JS.Z2f (Platform.percent_of_level c))))
     = JS.Z2f (Platform.percent_of_level c)
  /\ (0 <? JS.Z2f (Platform.percent_of_level c))%float
     = (0 <? Platform.percent_of_level c)%Z.
Proof.
  intros Hc.
  assert (H : Platform.level_point_ok c = true)
    by (apply (zrange_forallb Platform.level_point_ok 0 255 level_grid_checked); lia).
  clear Hc. unfold Platform.level_point_ok in H. cbv zeta in H.
  rewrite !andb_true_iff in H. destruct H as [[H1 H2] H3].
  apply FloatAxioms.Leibniz.eqb_spec in H1, H2. apply Bool.eqb_prop in H3.
  repeat split; assumption.
Qed.

Lemma clamp_grid_checked :
  forallb Color.clamp_point_ok (Range.zrange 0 255) = true.
Proof. vm_cast_no_check (eq_refl true). Qed.

Lemma clamp_checked (z : Z) :
  0 <= z <= 254 -> Color.clamp (JS.Z2f z) 0 254 = JS.Z2f z.
Proof.
  intros Hz. apply FloatAxioms.Leibniz.eqb_spec.
  apply (zrange_forallb Color.clamp_point_ok 0 255 clamp_grid_checked). lia.
Qed.

(** [hsvToRgbInt] reads its arguments through [clamp] only. *)
Lemma hsvToRgbInt_clamped (hue sat : float) (hc sc : Z) :
  Color.clamp hue 0 254 = JS.Z2f hc -> Color.clamp sat 0 254 = JS.Z2f sc ->
  0 <= hc <= 254 -> 0 <= sc <= 254 ->
  Color.hsvToRgbInt hue sat = Color.hsvToRgbInt (JS.Z2f hc) (JS.Z2f sc).
Proof.
  intros Hh Hs Hhc Hsc. unfold Color.hsvToRgbInt.
  rewrite Hh, Hs, (clamp_checked hc Hhc), (clamp_checked sc Hsc).
  reflexivity.
Qed.

Lemma hsvToRgbInt_range (hc sc : Z) :
  0 <= hc <= 254 -> 0 <= sc <= 254 ->
  0 <= Color.hsvToRgbInt (JS.Z2f hc) (JS.Z2f sc) < 2 ^ 24.
Proof.
  intros Hhc Hsc.
  destruct (hsv_point_checked hc sc Hhc Hsc)
    as [r [g [b [_ [Hcode [Hr [Hg Hb]]]]]]].
  rewrite Hcode. unfold Color.packRgb. change (2 ^ 24) with 16777216. lia.
Qed.

(** ** The handlers *)

Section Handlers.
Import MerossHttp Platform.
Local Open Scope string_scope.

Variable env : Env.
Variable d : Config.MerossDeviceConfig.

(** C10. A brightness request (with or without on/off) whose level is not a
    finite number, and a colour request whose hue or saturation is not a
    finite number, end fulfilled and leave the whole state as it was: nothing
    is posted and no cache changes. *)
Theorem non_finite_request_is_ignored (data : CommandData) (s : State) :
  (JS.Number_isFinite (request_level data) = false ->
     moveToLevel env d data s = (Fulfilled tt, s)
     /\ moveToLevelWithOnOff env d data s = (Fulfilled tt, s))
  /\ (JS.Number_isFinite (request_hue data) = false
      \/ JS.Number_isFinite (request_saturation data) = false ->
        moveToHueAndSaturation env d data s = (Fulfilled tt, s)).
Proof.
  split.
  - intros Hnf. unfold moveToLevel, moveToLevelWithOnOff.
    rewrite Hnf. split; reflexivity.
  - intros Hnf. unfold moveToHueAndSaturation.
    destruct Hnf as [Hnf | Hnf]; rewrite Hnf.
    + reflexivity.
    + rewrite orb_true_r. reflexivity.
Qed.


(** *** Running the handlers *)

Lemma liftNet_post ip key namespace method payload timeoutMs (s : State) :
  let post := post_of env (List.length (net s)) ip key namespace method
                      payload timeoutMs in
  liftNet (merossPostConfig env ip key namespace method payload timeoutMs) s
  = (settled env (fetch env (List.length (net s)) post),
     with_net (net s ++ [post])%list s).
Proof.
  intros post. unfold liftNet. rewrite merossPostConfig_run. reflexivity.
Qed.

Lemma send_light_run (s : State) :
  send_light env d s
  = (void (settled env (fetch env (List.length (net s)) (light_post env d s))),
     with_net (net s ++ [light_post env d s])%list s).
Proof.
  unfold send_light, bind, read_cache, merossSetRgbAndBrightness.
  rewrite liftNet_post. fold (light_post env d s).
  destruct (settled env _); reflexivity.
Qed.

Lemma power_on_run (s : State) :
  liftNet (merossToggleX env (device_ip d) (device_key d) (device_channel d) true) s
  = (settled env (fetch env (List.length (net s)) (power_on_post env d s)),
     with_net (net s ++ [power_on_post env d s])%list s).
Proof. unfold merossToggleX. rewrite liftNet_post. reflexivity. Qed.

Lemma with_cache_same (dev : string) (c : Cache) (s : State) :
  caches (with_cache dev c s) dev = c.
Proof. unfold with_cache. cbn [caches]. rewrite String.eqb_refl. reflexivity. Qed.

Lemma with_cache_other (dev other : string) (c : Cache) (s : State) :
  other <> dev -> caches (with_cache dev c s) other = caches s other.
Proof.
  intros Hne. unfold with_cache. cbn [caches].
  destruct (String.eqb_spec other dev); [contradiction | reflexivity].
Qed.

Lemma moveToLevel_run (data : CommandData) (s : State) :
  JS.Number_isFinite (request_level data) = true ->
  moveToLevel env d data s
  = send_light env d
      (with_cache (device_id d)
         {| lastRgb := lastRgb (caches s (device_id d));
            lastLum := level_percent (request_level data) |} s).
Proof.
  intros Hfin. unfold moveToLevel. rewrite Hfin. reflexivity.
Qed.

Lemma moveToHueAndSaturation_run (data : CommandData) (s : State) :
  JS.Number_isFinite (request_hue data) = true ->
  JS.Number_isFinite (request_saturation data) = true ->
  moveToHueAndSaturation env d data s
  = send_light env d
      (with_cache (device_id d)
         {| lastRgb := Color.hsvToRgbInt (request_hue data) (request_saturation data);
            lastLum := lastLum (caches s (device_id d)) |} s).
Proof.
  intros Hh Hs. unfold moveToHueAndSaturation. rewrite Hh, Hs. reflexivity.
Qed.

(** The brightness handler on a level whose clamped value is an integer of
    [0,254]. *)
Lemma moveToLevel_effect (data : CommandData) (s : State) (c : Z) :
  JS.Number_isFinite (request_level data) = true ->
  Color.clamp (request_level data) 0 254 = JS.Z2f c ->
  0 <= c <= 254 ->
  0 <= lastRgb (caches s (device_id d)) < 2 ^ 32 ->
  let cache' := {| lastRgb := lastRgb (caches s (device_id d));
                   lastLum := JS.Z2f (percent_of_level c) |} in
  let post := post_of env (List.length (net s)) (device_ip d) (device_key d)
                "Appliance.Control.Light" SET
                (LightPayload (Some (lastRgb (caches s (device_id d)))) 5
                   (JS.Z2f (percent_of_level c)) (device_channel d))
                default_timeoutMs in
  moveToLevel env d data s
  = (void (settled env (fetch env (List.length (net s)) post)),
     after d cache' post s).
Proof.
  intros Hfin Hclamp Hc Hrgb cache' post.
  destruct (level_checked c Hc) as [Hround [Hnorm _]].
  rewrite (moveToLevel_run data s Hfin).
  unfold level_percent. rewrite Hclamp, Hround. fold cache'.
  assert (Epost : light_post env d (with_cache (device_id d) cache' s) = post).
  { unfold light_post. rewrite with_cache_same. subst cache'.
    cbn [lastRgb lastLum]. rewrite Hnorm.
    unfold JS.ushr0, JS.uint32. rewrite Z.mod_small by exact Hrgb.
    reflexivity. }
  rewrite send_light_run, Epost. reflexivity.
Qed.

Lemma moveToLevelWithOnOff_run (data : CommandData) (s : State) :
  JS.Number_isFinite (request_level data) = true ->
  let s1 := with_cache (device_id d)
              {| lastRgb := lastRgb (caches s (device_id d));
                 lastLum := level_percent (request_level data) |} s in
  let s2 := with_net (net s ++ [power_on_post env d s1])%list s1 in
  moveToLevelWithOnOff env d data s
  = if (0 <? level_percent (request_level data))%float
    then match settled env (fetch env (List.length (net s))
                              (power_on_post env d s1)) with
         | Fulfilled _ => send_light env d s2
         | Rejected e => (Rejected e, s2)
         end
    else send_light env d s1.
Proof.
  intros Hfin s1 s2.
  unfold moveToLevelWithOnOff. rewrite Hfin. cbn [negb].
  unfold bind at 1. unfold set_lastLum, modify. fold s1.
  unfold bind at 1. unfold read_cache at 1.
  unfold s1 at 1. rewrite with_cache_same. cbn [lastLum]. fold s1.
  destruct (0 <? level_percent (request_level data))%float.
  - unfold bind at 1. unfold bind at 1. rewrite power_on_run. fold s2.
    destruct (settled env _); reflexivity.
  - reflexivity.
Qed.

(** C4. When the converted luminance is above 0, the brightness-with-on/off
    handler first issues the ToggleX POST that turns the device on, and awaits
    it.  If that call is rejected, the handler is rejected with the same error
    and the ToggleX POST is the only request issued: no Light payload is sent.
    If it is fulfilled, the Light POST follows it. *)
Theorem moveToLevelWithOnOff_power_first (data : CommandData) (s : State) :
  JS.Number_isFinite (request_level data) = true ->
  (0 <? level_percent (request_level data))%float = true ->
  let s1 := with_cache (device_id d)
              {| lastRgb := lastRgb (caches s (device_id d));
                 lastLum := level_percent (request_level data) |} s in
  let toggle := power_on_post env d s1 in
  let s2 := with_net (net s ++ [toggle])%list s1 in
  payload (body toggle) = TogglexPayload (device_channel d) 1
  /\ namespace (header (body toggle)) = "Appliance.Control.ToggleX"
  /\ liftNet (merossToggleX env (device_ip d) (device_key d)
                (device_channel d) true) s1
     = (settled env (fetch env (List.length (net s)) toggle), s2)
  /\ (forall e,
        settled env (fetch env (List.length (net s)) toggle) = Rejected e ->
        moveToLevelWithOnOff env d data s = (Rejected e, s2)
        /\ net s2 = (net s ++ [toggle])%list)
  /\ (forall v,
        settled env (fetch env (List.length (net s)) toggle) = Fulfilled v ->
        exists (o : Outcome unit) (light : HttpPost),
          moveToLevelWithOnOff env d data s
          = (o, with_net (net s ++ [toggle; light])%list s1)
          /\ namespace (header (body light)) = "Appliance.Control.Light"
          /\ light = light_post env d s2).
Proof.
  intros Hfin Hpos s1 toggle s2.
  pose proof (moveToLevelWithOnOff_run data s Hfin) as Hstart.
  cbv zeta in Hstart. rewrite Hpos in Hstart. fold s1 toggle s2 in Hstart.
  split; [reflexivity|]. split; [reflexivity|].
  split; [rewrite power_on_run; reflexivity|].
  split.
  - intros e He. rewrite Hstart, He. split; reflexivity.
  - intros v Hv. rewrite Hstart, Hv. rewrite send_light_run.
    eexists. exists (light_post env d s2).
    split; [|split; reflexivity].
    f_equal. unfold s2, with_net. cbn [net caches registered].
    rewrite <- app_assoc. reflexivity.
Qed.

(** C3. A colour request followed by a brightness request on the same
    device (finite hue and saturation, a finite level whose clamped value is
    an integer of 0..254): the first call
    caches the colour it computed and sends it, and the POST of the second call
    carries that same colour with the new luminance, whatever the device
    answered to the first call and whatever colour was cached before it. *)
Theorem hue_then_level_sends_the_hue_color
    (data1 data2 : CommandData) (s : State) (c : Z) :
  JS.Number_isFinite (request_hue data1) = true ->
  JS.Number_isFinite (request_saturation data1) = true ->
  JS.Number_isFinite (request_level data2) = true ->
  Color.clamp (request_level data2) 0 254 = JS.Z2f c ->
  0 <= c <= 254 ->
  let color := Color.hsvToRgbInt (request_hue data1) (request_saturation data1) in
  exists (o1 o2 : Outcome unit) (s1 s2 : State) (p1 p2 : HttpPost) (lum1 : float),
    moveToHueAndSaturation env d data1 s = (o1, s1)
    /\ lastRgb (caches s1 (device_id d)) = color
    /\ payload (body p1) = LightPayload (Some color) 5 lum1 (device_channel d)
    /\ moveToLevel env d data2 s1 = (o2, s2)
    /\ net s2 = (net s ++ [p1; p2])%list
    /\ payload (body p2)
       = LightPayload (Some color) 5 (JS.Z2f (percent_of_level c))
           (device_channel d)
    /\ lastRgb (caches s2 (device_id d)) = color.
Proof.
  intros Hfh Hfs Hfl Hl Hc color.
  assert (Hrange : 0 <= color < 2 ^ 32).
  { pose proof (hsvToRgbInt_any_range (request_hue data1)
                  (request_saturation data1)) as R.
    fold color in R. clearbody color.
    change (2 ^ 24) with 16777216 in R. change (2 ^ 32) with 4294967296. lia. }
  rewrite (moveToHueAndSaturation_run data1 s Hfh Hfs). fold color.
  rewrite send_light_run.
  set (c1 := {| lastRgb := color; lastLum := lastLum (caches s (device_id d)) |}).
  set (p1 := light_post env d (with_cache (device_id d) c1 s)).
  set (s1 := with_net (net (with_cache (device_id d) c1 s) ++ [p1])%list
               (with_cache (device_id d) c1 s)).
  assert (Hc1 : caches s1 (device_id d) = c1)
    by (unfold s1, with_net; cbn [caches]; apply with_cache_same).
  assert (Hrgb1 : 0 <= lastRgb (caches s1 (device_id d)) < 2 ^ 32)
    by (rewrite Hc1; exact Hrange).
  pose proof (moveToLevel_effect data2 s1 c Hfl Hl Hc Hrgb1) as Hrun.
  cbv zeta in Hrun. rewrite Hc1 in Hrun. cbn [lastRgb] in Hrun.
  eexists. eexists. exists s1. eexists. exists p1. eexists. eexists.
  split; [reflexivity|].
  split; [rewrite Hc1; reflexivity|].
  split.
  { unfold p1, light_post. rewrite with_cache_same. unfold c1.
    cbn [lastRgb lastLum post_of body payload].
    unfold JS.ushr0, JS.uint32. rewrite Z.mod_small by exact Hrange.
    reflexivity. }
  split; [exact Hrun|].
  split; [unfold after, with_net, s1, with_net; cbn [net];
          rewrite <- app_assoc; reflexivity|].
  split; [reflexivity|].
  unfold after, with_net; cbn [caches]; rewrite with_cache_same; reflexivity.
Qed.

(** *** The caches under the commands of one device *)

Lemma keeps_caches_unchanged (h : CommandData -> Async State unit) :
  (forall data s, caches (snd (h data s)) = caches s) -> keeps_caches d h.
Proof.
  intros Hsame data s. rewrite Hsame. split; [reflexivity | trivial].
Qed.

Lemma send_light_caches (s : State) : caches (snd (send_light env d s)) = caches s.
Proof. rewrite send_light_run. reflexivity. Qed.

Lemma keeps_caches_update (c : Cache) (s : State) :
  (packed (caches s (device_id d)) -> packed c) ->
  (forall dev, dev <> device_id d ->
     caches (with_cache (device_id d) c s) dev = caches s dev)
  /\ (packed (caches s (device_id d)) ->
      packed (caches (with_cache (device_id d) c s) (device_id d))).
Proof.
  intros Hc. split.
  - intros dev Hne. apply with_cache_other. exact Hne.
  - intros Hp. rewrite with_cache_same. exact (Hc Hp).
Qed.

Lemma toggle_keeps_caches (on : bool) :
  keeps_caches d (fun _ => _ <- liftNet (merossToggleX env (device_ip d)
                                        (device_key d) (device_channel d) on) ;;
                         ret tt).
Proof.
  apply keeps_caches_unchanged. intros data s.
  unfold bind, merossToggleX. rewrite liftNet_post.
  destruct (settled env _); reflexivity.
Qed.

Lemma moveToLevel_keeps_caches : keeps_caches d (moveToLevel env d).
Proof.
  intros data s.
  destruct (JS.Number_isFinite (request_level data)) eqn:Hfin.
  - rewrite (moveToLevel_run data s Hfin), send_light_caches.
    apply keeps_caches_update. trivial.
  - unfold moveToLevel. rewrite Hfin. split; [reflexivity | trivial].
Qed.

Lemma moveToLevelWithOnOff_keeps_caches :
  keeps_caches d (moveToLevelWithOnOff env d).
Proof.
  intros data s.
  destruct (JS.Number_isFinite (request_level data)) eqn:Hfin.
  - rewrite (moveToLevelWithOnOff_run data s Hfin). cbv zeta.
    destruct (0 <? level_percent (request_level data))%float;
      [destruct (settled env _)|];
      rewrite ?send_light_caches; cbn [snd with_net caches];
      apply keeps_caches_update; trivial.
  - unfold moveToLevelWithOnOff. rewrite Hfin. split; [reflexivity | trivial].
Qed.

Lemma moveToHueAndSaturation_keeps_caches :
  keeps_caches d (moveToHueAndSaturation env d).
Proof.
  intros data s.
  destruct (JS.Number_isFinite (request_hue data)) eqn:Hh;
    [destruct (JS.Number_isFinite (request_saturation data)) eqn:Hs|].
  - rewrite (moveToHueAndSaturation_run data s Hh Hs), send_light_caches.
    apply keeps_caches_update. intros _. apply hsvToRgbInt_any_range.
  - unfold moveToHueAndSaturation. rewrite Hh, Hs.
    split; [reflexivity | trivial].
  - unfold moveToHueAndSaturation. rewrite Hh.
    split; [reflexivity | trivial].
Qed.

Lemma lookup_handler_In {H : Type} (name : string) (table : list (string * H))
    (h : H) :
  lookup_handler name table = Some h -> exists n, In (n, h) table.
Proof.
  induction table as [|[n0 h0] rest IH]; [discriminate|].
  cbn [lookup_handler]. destruct (String.eqb name n0).
  - intros [= <-]. exists n0. left. reflexivity.
  - intros Hl. destruct (IH Hl) as [n Hin]. exists n. right. exact Hin.
Qed.

(** X1. Every command of device [d], with any request: the caches of the other
    devices are left as they are, and the cached colour of [d] remains a
    packed 24-bit value (so [rgb24 >>> 0] in [merossSetRgbAndBrightness] is
    the cached colour itself in every state the handlers can produce). *)
Theorem invoke_keeps_caches (name : string) : keeps_caches d (invoke env d name).
Proof.
  unfold invoke.
  destruct (lookup_handler name (commandHandlers env d)) as [h|] eqn:Hl.
  - destruct (lookup_handler_In _ _ _ Hl) as [n Hin].
    unfold commandHandlers in Hin. cbn [In] in Hin.
    destruct Hin as [E | [E | [E | [E | [E | [E | []]]]]]];
      injection E as _ <-.
    + apply (toggle_keeps_caches true).
    + apply (toggle_keeps_caches false).
    + apply moveToLevel_keeps_caches.
    + apply moveToLevelWithOnOff_keeps_caches.
    + apply moveToHueAndSaturation_keeps_caches.
    + apply keeps_caches_unchanged. reflexivity.
  - apply keeps_caches_unchanged. reflexivity.
Qed.

End Handlers.

Lemma non_finite_request_is_ignored_witness :
  (Platform.moveToLevel (Demo.world (Demo.always (MerossHttp.FetchRejected MerossHttp.AbortError)))
     Demo.bulb Demo.empty_request Demo.start
   = (MerossHttp.Fulfilled tt, Demo.start)
   /\ Platform.moveToLevelWithOnOff (Demo.world (Demo.always (MerossHttp.FetchRejected MerossHttp.AbortError)))
        Demo.bulb Demo.empty_request Demo.start
      = (MerossHttp.Fulfilled tt, Demo.start))
  /\ Platform.moveToHueAndSaturation (Demo.world (Demo.always (MerossHttp.FetchRejected MerossHttp.AbortError)))
       Demo.bulb (Demo.color_request 12 infinity) Demo.start
     = (MerossHttp.Fulfilled tt, Demo.start).
Proof.
  split.
  - exact (proj1 (non_finite_request_is_ignored
                    (Demo.world (Demo.always (MerossHttp.FetchRejected MerossHttp.AbortError)))
                    Demo.bulb Demo.empty_request Demo.start) eq_refl).
  - exact (proj2 (non_finite_request_is_ignored
                    (Demo.world (Demo.always (MerossHttp.FetchRejected MerossHttp.AbortError)))
                    Demo.bulb (Demo.color_request 12 infinity) Demo.start)
                 (or_intror eq_refl)).
Defined.

(** ** Validation of the configuration *)

Section Validation.
Import Text MerossHttp Platform.
Local Open Scope string_scope.

Lemma falsy_None (v : option string) : v = None -> falsy v = true.
Proof. intros ->. reflexivity. Qed.

Lemma falsy_false (v : option string) :
  falsy v = false -> exists s, v = Some s.
Proof. destruct v as [s|]; [eexists; reflexivity | discriminate]. Qed.

(** A loop that ends without throwing has seen complete entries with
    pairwise distinct ids, none of them in [seen]. *)
Lemma validate_loop_None (ds : list Config.MerossDeviceConfig) :
  forall seen,
    validate_loop seen ds = None ->
    Forall (fun d => ~ incomplete d) ds
    /\ NoDup (map Config.id ds)
    /\ (forall d, In d ds -> ~ In (device_id d) seen).
Proof.
  induction ds as [|d rest IH]; intros seen Hloop.
  - split; [constructor|]. split; [constructor|]. intros d [].
  - cbn [validate_loop] in Hloop.
    destruct (falsy (Config.id d)) eqn:Fid; [discriminate|].
    destruct (falsy (Config.name d)) eqn:Fname; [discriminate|].
    destruct (falsy (Config.ip d)) eqn:Fip; [discriminate|].
    destruct (falsy (Config.key d)) eqn:Fkey; [discriminate|].
    cbn [orb] in Hloop.
    destruct (existsb (String.eqb (template (Config.id d))) seen) eqn:Hseen;
      [discriminate|].
    destruct (IH _ Hloop) as [Hcomplete [Hnodup Hfresh]].
    destruct (falsy_false _ Fid) as [i Hi].
    split; [|split].
    + constructor; [|exact Hcomplete].
      intros [H | [H | [H | H]]];
        apply falsy_None in H; congruence.
    + cbn [map]. constructor; [|exact Hnodup].
      intros Hin. apply in_map_iff in Hin. destruct Hin as [d' [Hid' Hd']].
      apply (Hfresh d' Hd'). left. unfold device_id. rewrite Hid'. reflexivity.
    + intros d' [<- | Hd'] Hin.
      * assert (Hex : existsb (String.eqb (template (Config.id d))) seen = true).
        { apply existsb_exists. exists (device_id d).
          split; [exact Hin | apply String.eqb_refl]. }
        congruence.
      * apply (Hfresh d' Hd'). right. exact Hin.
Qed.

(** Every error of [validateDevices] is a configuration error. *)
Lemma validate_loop_message (ds : list Config.MerossDeviceConfig) :
  forall seen e,
    validate_loop seen ds = Some e ->
    exists detail, e = Error ("Config error: " ++ detail).
Proof.
  induction ds as [|d rest IH]; intros seen e Hloop; [discriminate|].
  cbn [validate_loop] in Hloop.
  destruct (falsy (Config.id d) || falsy (Config.name d)
            || falsy (Config.ip d) || falsy (Config.key d)).
  - injection Hloop as <-. eexists. reflexivity.
  - destruct (existsb (String.eqb (template (Config.id d))) seen).
    + injection Hloop as <-. eexists. reflexivity.
    + exact (IH _ _ Hloop).
Qed.

Variable env : Env.

Lemma initial_cache_packed : packed initial_cache.
Proof. unfold packed, initial_cache. cbn [lastRgb]. split; [discriminate | reflexivity]. Qed.

(** Registration gives each device the default cache and leaves every cached
    colour packed. *)
Lemma register_all_packed (ds : list Config.MerossDeviceConfig) :
  forall (s : State) (dev : string),
    packed (caches s dev) -> packed (caches (snd (register_all env ds s)) dev).
Proof.
  induction ds as [|d rest IH]; intros s dev Hp; [exact Hp|].
  cbn [register_all]. unfold bind at 1. unfold modify at 1.
  set (s1 := with_cache (device_id d) initial_cache s).
  assert (Hp1 : packed (caches s1 dev)).
  { unfold s1, with_cache. cbn [caches].
    destruct (String.eqb dev (device_id d)); [apply initial_cache_packed | exact Hp]. }
  unfold bind, registerDevice.
  destruct (host_registerDevice env (endpoint_id (endpoint_of d))).
  - exact Hp1.
  - unfold modify. apply IH. exact Hp1.
Qed.

(** C8. A device list with two entries of the same id, or with an entry
    lacking its id, name, ip or key, makes [validateDevices] throw a
    configuration error; [discoverDevices], and with it the start of the
    platform, is rejected with that error before anything is registered: the
    state, its list of registered endpoints included, is unchanged. *)
Theorem invalid_configuration_registers_nothing
    (config : Config.MerossPlatformConfig)
    (ds : list Config.MerossDeviceConfig) (s : State) :
  Config.devices config = Some ds ->
  ~ NoDup (map Config.id ds) \/ Exists incomplete ds ->
  exists detail,
    validateDevices config = Rejected (Error ("Config error: " ++ detail))
    /\ discoverDevices env config s
       = (Rejected (Error ("Config error: " ++ detail)), s)
    /\ onStart env config s
       = (Rejected (Error ("Config error: " ++ detail)), s)
    /\ registered (snd (onStart env config s)) = registered s.
Proof.
  intros Hds Hbad.
  assert (Hv : exists detail,
             validateDevices config
             = Rejected (Error ("Config error: " ++ detail))).
  { unfold validateDevices. rewrite Hds.
    destruct ds as [|d0 rest]; [eexists; reflexivity|].
    destruct (validate_loop [] (d0 :: rest)) as [e|] eqn:Hloop.
    - destruct (validate_loop_message _ _ _ Hloop) as [detail ->].
      exists detail. reflexivity.
    - exfalso. destruct (validate_loop_None _ _ Hloop) as [Hcomplete [Hnodup _]].
      destruct Hbad as [Hdup | Hinc]; [exact (Hdup Hnodup)|].
      apply Exists_exists in Hinc. destruct Hinc as [d' [Hin Hd']].
      rewrite Forall_forall in Hcomplete. exact (Hcomplete d' Hin Hd'). }
  destruct Hv as [detail Hv]. exists detail.
  assert (Hrun : discoverDevices env config s
                 = (Rejected (Error ("Config error: " ++ detail)), s))
    by (unfold discoverDevices, bind, settle; rewrite Hv; reflexivity).
  split; [exact Hv|]. split; [exact Hrun|].
  unfold onStart. rewrite Hrun. split; reflexivity.
Qed.

End Validation.

(** ** Instances *)

Lemma moveToLevelWithOnOff_power_first_witness :
  exists (s2 : Platform.State) (toggle : MerossHttp.HttpPost),
    Platform.moveToLevelWithOnOff Demo.silent Demo.bulb (Demo.level_request 200)
      Demo.start
    = (MerossHttp.Rejected MerossHttp.AbortError, s2)
    /\ Platform.net s2 = [toggle]
    /\ MerossHttp.payload (MerossHttp.body toggle) = MerossHttp.TogglexPayload 0 1.
Proof.
  pose proof (moveToLevelWithOnOff_power_first Demo.silent Demo.bulb
                (Demo.level_request 200) Demo.start eq_refl eq_refl) as H.
  cbv zeta in H. destruct H as [Hpayload [_ [_ [Hrejected _]]]].
  destruct (Hrejected MerossHttp.AbortError eq_refl) as [Hrun Hnet].
  eexists. eexists. split; [exact Hrun|]. split; [exact Hnet | exact Hpayload].
Defined.

Lemma hue_then_level_sends_the_hue_color_witness :
  exists (o1 o2 : MerossHttp.Outcome unit) (s1 s2 : Platform.State)
         (p1 p2 : MerossHttp.HttpPost),
    Platform.moveToHueAndSaturation Demo.silent Demo.bulb
      (Demo.color_request 85 254) Demo.start = (o1, s1)
    /\ Platform.moveToLevel Demo.silent Demo.bulb (Demo.level_request 127) s1
       = (o2, s2)
    /\ Platform.net s2 = [p1; p2]
    /\ MerossHttp.payload (MerossHttp.body p2)
       = MerossHttp.LightPayload (Some 0x00ff02) 5 50 0.
Proof.
  assert (Hc : 0 <= 127 <= 254) by lia.
  destruct (hue_then_level_sends_the_hue_color Demo.silent Demo.bulb
              (Demo.color_request 85 254) (Demo.level_request 127) Demo.start
              127 eq_refl eq_refl eq_refl eq_refl Hc)
    as [o1 [o2 [s1 [s2 [p1 [p2 [lum1 [H1 [_ [_ [H2 [Hnet [Hpayload _]]]]]]]]]]]]].
  exists o1, o2, s1, s2, p1, p2.
  split; [exact H1|]. split; [exact H2|]. split; [exact Hnet | exact Hpayload].
Defined.

Lemma invalid_configuration_registers_nothing_witness :
  exists detail,
    Platform.discoverDevices Demo.quiet Demo.listed_twice Demo.start
    = (MerossHttp.Rejected (MerossHttp.Error ("Config error: " ++ detail)),
       Demo.start).
Proof.
  assert (Hdup : ~ NoDup (map Config.id [Demo.bulb; Demo.bulb])
                 \/ Exists Platform.incomplete [Demo.bulb; Demo.bulb]).
  { left. intros Hnd. inversion Hnd as [|x l Hnotin _]. apply Hnotin.
    left. reflexivity. }
  destruct (invalid_configuration_registers_nothing Demo.quiet Demo.listed_twice
              [Demo.bulb; Demo.bulb] Demo.start eq_refl Hdup)
    as [detail [_ [Hrun _]]].
  exists detail. exact Hrun.
Defined.

Lemma merossPostConfig_failure_propagates_witness :
  MerossHttp.merossPostConfig Demo.silent "192.168.1.20" "k"
    "Appliance.Control.Light" MerossHttp.SET
    (MerossHttp.LightPayload (Some 0xffffff) 5 100 0) 4000 []
  = (MerossHttp.Rejected MerossHttp.AbortError,
     [MerossHttp.post_of Demo.silent 0 "192.168.1.20" "k"
        "Appliance.Control.Light" MerossHttp.SET
        (MerossHttp.LightPayload (Some 0xffffff) 5 100 0) 4000]).
Proof.
  apply (merossPostConfig_failure_propagates Demo.silent "192.168.1.20" "k"
           "Appliance.Control.Light" MerossHttp.SET
           (MerossHttp.LightPayload (Some 0xffffff) 5 100 0) 4000 []
           MerossHttp.AbortError).
  left. reflexivity.
Defined.

(* ================================================================== *)
(** * Further properties of the code *)
(* ================================================================== *)

(** ** Which configurations are accepted, and what registration does *)

Section Registration.
Import Text MerossHttp Platform Facts.
Local Open Scope string_scope.

Lemma complete_not_falsy (d : Config.MerossDeviceConfig) :
  complete d <->
  falsy (Config.id d) || falsy (Config.name d)
  || falsy (Config.ip d) || falsy (Config.key d) = false.
Proof.
  unfold complete. rewrite !orb_false_iff. tauto.
Qed.

(** The loop ends without throwing exactly on complete entries whose ids are
    pairwise distinct and not yet seen. *)
Lemma validate_loop_accepts (ds : list Config.MerossDeviceConfig) :
  forall seen,
    validate_loop seen ds = None <->
    Forall complete ds
    /\ NoDup (map device_id ds)
    /\ (forall d, In d ds -> ~ In (device_id d) seen).
Proof.
  induction ds as [|d rest IH]; intros seen.
  - split; [|reflexivity]. intros _.
    split; [constructor|]. split; [constructor|]. intros d [].
  - cbn [validate_loop map]. fold (device_id d).
    destruct (falsy (Config.id d) || falsy (Config.name d)
              || falsy (Config.ip d) || falsy (Config.key d)) eqn:Hf.
    + split; [discriminate|]. intros [Hall _].
      inversion Hall as [|x l Hd _]. subst.
      apply complete_not_falsy in Hd. congruence.
    + apply complete_not_falsy in Hf.
      destruct (existsb (String.eqb (device_id d)) seen) eqn:Hseen.
      * split; [discriminate|]. intros [_ [_ Hfresh]]. exfalso.
        apply existsb_exists in Hseen. destruct Hseen as [x [Hx Heq]].
        apply String.eqb_eq in Heq. subst x.
        exact (Hfresh d (or_introl eq_refl) Hx).
      * rewrite IH. split.
        -- intros [Hall [Hnd Hfresh]].
           split; [constructor; assumption|]. split.
           ++ constructor; [|exact Hnd]. intros Hin.
              apply in_map_iff in Hin. destruct Hin as [d' [Hid Hd']].
              apply (Hfresh d' Hd'). left. symmetry. exact Hid.
           ++ intros d' [<- | Hd'] Hin.
              ** assert (Hex : existsb (String.eqb (device_id d)) seen = true)
                   by (apply existsb_exists; exists (device_id d);
                       split; [exact Hin | apply String.eqb_refl]).
                 congruence.
              ** apply (Hfresh d' Hd'). right. exact Hin.
        -- intros [Hall [Hnd Hfresh]].
           inversion Hall as [|x l Hd Hrest]. subst.
           inversion Hnd as [|x l Hnotin Hnd']. subst.
           split; [exact Hrest|]. split; [exact Hnd'|].
           intros d' Hd' [Heq | Hin].
           ++ apply Hnotin. apply in_map_iff. exists d'.
              split; [symmetry; exact Heq | exact Hd'].
           ++ exact (Hfresh d' (or_intror Hd') Hin).
Qed.

(** X4. [validateDevices] returns the device list, unchanged, exactly when the
    list is a non-empty array whose entries all have a non-empty id, name, ip
    and key and whose ids are pairwise distinct; a missing or empty array is
    refused with its own message. *)
Theorem validateDevices_accepts_exactly
    (config : Config.MerossPlatformConfig)
    (ds : list Config.MerossDeviceConfig) :
  (validateDevices config = Fulfilled ds <->
     Config.devices config = Some ds /\ ds <> []
     /\ Forall complete ds /\ NoDup (map device_id ds))
  /\ (Config.devices config = None \/ Config.devices config = Some [] ->
        validateDevices config
        = Rejected (Error "Config error: devices[] is required and must contain at least one device")).
Proof.
  split.
  - unfold validateDevices.
    destruct (Config.devices config) as [[|d0 rest]|] eqn:Hds.
    + split; [discriminate|]. intros [[= <-] [Hne _]]. contradiction.
    + destruct (validate_loop [] (d0 :: rest)) as [e|] eqn:Hloop.
      * split; [discriminate|]. intros [[= <-] [_ [Hall Hnd]]].
        assert (Hnone : validate_loop [] (d0 :: rest) = None)
          by (apply validate_loop_accepts; split; [exact Hall|];
              split; [exact Hnd | intros ? ? []]).
        congruence.
      * apply validate_loop_accepts in Hloop. destruct Hloop as [Hall [Hnd _]].
        split.
        -- intros [= <-]. split; [reflexivity|]. split; [discriminate|].
           split; assumption.
        -- intros [[= <-] _]. reflexivity.
    + split; [discriminate|]. intros [Hs _]. discriminate.
  - unfold validateDevices. intros [-> | ->]; reflexivity.
Qed.

Variable env : Env.

(** The registration loop on devices the host accepts. *)
Lemma register_all_accepted (ds : list Config.MerossDeviceConfig) :
  forall s : State,
    (forall d, In d ds -> host_registerDevice env (device_id d) = None) ->
    exists s',
      register_all env ds s = (Fulfilled tt, s')
      /\ registered s' = (registered s ++ map endpoint_of ds)%list
      /\ net s' = net s
      /\ (forall d, In d ds -> caches s' (device_id d) = initial_cache)
      /\ (forall dev, ~ In dev (map device_id ds) -> caches s' dev = caches s dev).
Proof.
  induction ds as [|d rest IH]; intros s Hok.
  - exists s. split; [reflexivity|]. split; [cbn; rewrite app_nil_r; reflexivity|].
    split; [reflexivity|]. split; [intros d []|reflexivity].
  - cbn [register_all]. unfold bind at 1. unfold modify at 1.
    set (s1 := with_cache (device_id d) initial_cache s).
    unfold bind at 1. unfold registerDevice. cbn [endpoint_id endpoint_of].
    rewrite (Hok d (or_introl eq_refl)). unfold modify.
    set (s2 := with_endpoint (endpoint_of d) s1).
    destruct (IH s2 (fun x Hx => Hok x (or_intror Hx)))
      as [s' [Hrun [Hreg [Hnet [Hin Hout]]]]].
    exists s'. split; [exact Hrun|].
    split; [rewrite Hreg; cbn [registered s2 with_endpoint s1 with_cache map];
            rewrite <- app_assoc; reflexivity|].
    split; [rewrite Hnet; reflexivity|].
    split.
    + intros x [<- | Hx]; [|exact (Hin x Hx)].
      destruct (in_dec string_dec (device_id d) (map device_id rest)) as [Hd | Hd].
      * apply in_map_iff in Hd. destruct Hd as [y [Hy Hyin]].
        rewrite <- Hy. exact (Hin y Hyin).
      * rewrite (Hout _ Hd). unfold s2, with_endpoint. cbn [caches].
        apply with_cache_same.
    + intros dev Hdev. cbn [map In] in Hdev.
      rewrite Hout by tauto. unfold s2, with_endpoint. cbn [caches].
      apply with_cache_other. intros ->. tauto.
Qed.

(** The registration loop up to the first device the host refuses. *)
Lemma register_all_refused
    (pre : list Config.MerossDeviceConfig) (d : Config.MerossDeviceConfig)
    (rest : list Config.MerossDeviceConfig) (e : JsError) :
  forall s : State,
    (forall x, In x pre -> host_registerDevice env (device_id x) = None) ->
    host_registerDevice env (device_id d) = Some e ->
    exists s',
      register_all env (pre ++ d :: rest)%list s = (Rejected e, s')
      /\ registered s' = (registered s ++ map endpoint_of pre)%list
      /\ net s' = net s.
Proof.
  induction pre as [|x pre IH]; intros s Hok Hbad.
  - cbn [app register_all]. unfold bind at 1. unfold modify at 1.
    unfold bind at 1. unfold registerDevice. cbn [endpoint_id endpoint_of].
    rewrite Hbad. eexists. split; [reflexivity|].
    split; [cbn; rewrite app_nil_r; reflexivity | reflexivity].
  - cbn [app register_all]. unfold bind at 1. unfold modify at 1.
    unfold bind at 1. unfold registerDevice. cbn [endpoint_id endpoint_of].
    rewrite (Hok x (or_introl eq_refl)). unfold modify.
    destruct (IH (with_endpoint (endpoint_of x)
                    (with_cache (device_id x) initial_cache s))
                 (fun y Hy => Hok y (or_intror Hy)) Hbad)
      as [s' [Hrun [Hreg Hnet]]].
    exists s'. split; [exact Hrun|].
    split; [rewrite Hreg; cbn [registered with_endpoint with_cache map];
            rewrite <- app_assoc; reflexivity|].
    rewrite Hnet. reflexivity.
Qed.

(** X5. On a configuration that [validateDevices] accepts, with a host that
    accepts every endpoint, [discoverDevices] is fulfilled after registering
    one endpoint per device, in the order of the list, each with the device's
    id, its name and the serial number [SN-<id>]; every listed device starts
    with the default cache (white, luminance 100), the other caches are left
    alone, and no request is sent. *)
Theorem discoverDevices_registers_every_device
    (config : Config.MerossPlatformConfig)
    (ds : list Config.MerossDeviceConfig) (s : State) :
  validateDevices config = Fulfilled ds ->
  (forall d, In d ds -> host_registerDevice env (device_id d) = None) ->
  exists s',
    discoverDevices env config s = (Fulfilled tt, s')
    /\ registered s'
       = (registered s
          ++ map (fun d => {| endpoint_id := device_id d;
                              deviceName := template (Config.name d);
                              serialNumber := "SN-" ++ device_id d |}) ds)%list
    /\ net s' = net s
    /\ (forall d, In d ds ->
          caches s' (device_id d) = {| lastRgb := 0xffffff; lastLum := 100 |})
    /\ (forall dev, ~ In dev (map device_id ds) -> caches s' dev = caches s dev).
Proof.
  intros Hv Hok.
  destruct (register_all_accepted ds s Hok) as [s' [Hrun H]].
  exists s'. split; [|exact H].
  unfold discoverDevices, bind, settle. rewrite Hv. exact Hrun.
Qed.

(** X6. When the host refuses the endpoint of a device, [discoverDevices] is
    rejected with the host's error at that device: the devices listed before
    it stay registered, in order, the device and those after it are not
    registered, and no request is sent. *)
Theorem discoverDevices_stops_at_the_refused_device
    (config : Config.MerossPlatformConfig)
    (pre : list Config.MerossDeviceConfig) (d : Config.MerossDeviceConfig)
    (rest : list Config.MerossDeviceConfig) (e : JsError) (s : State) :
  validateDevices config = Fulfilled (pre ++ d :: rest)%list ->
  (forall x, In x pre -> host_registerDevice env (device_id x) = None) ->
  host_registerDevice env (device_id d) = Some e ->
  exists s',
    discoverDevices env config s = (Rejected e, s')
    /\ registered s' = (registered s ++ map endpoint_of pre)%list
    /\ net s' = net s.
Proof.
  intros Hv Hok Hbad.
  destruct (register_all_refused pre d rest e s Hok Hbad) as [s' [Hrun H]].
  exists s'. split; [|exact H].
  unfold discoverDevices, bind, settle. rewrite Hv. exact Hrun.
Qed.

End Registration.

(** ** Bounds of what the Light commands send *)

Lemma SF_lt_le (a b : spec_float) : SFltb a b = true -> SFleb a b = true.
Proof.
  unfold SFltb, SFleb. destruct (SFcompare a b) as [[| |]|]; congruence.
Qed.

(** Against a positive finite bound, "the bound is not below [x]" gives
    "[x] is at most the bound", unless [x] is NaN. *)
Lemma SF_not_lt_le (mh : positive) (eh : Z) (x : spec_float) :
  SFeqb x x = true ->
  SFltb (S754_finite false mh eh) x = false ->
  SFleb x (S754_finite false mh eh) = true.
Proof.
  intros Hnan Hlt. unfold SFltb, SFleb, SFeqb in *.
  destruct x as [s | s | | s m e]; cbn in *.
  - reflexivity.
  - destruct s; [reflexivity | discriminate].
  - discriminate.
  - destruct s; [reflexivity|].
    destruct (Z.compare_spec eh e) as [He | He | He];
      destruct (Z.compare_spec e eh) as [He' | He' | He'];
      try lia; try reflexivity; try discriminate.
    rewrite Pos.compare_cont_spec in Hlt |- *. cbn [Pos.switch_Eq] in *.
    destruct (Pos.compare_spec mh m) as [Hm | Hm | Hm];
      destruct (Pos.compare_spec m mh) as [Hm' | Hm' | Hm'];
      try lia; try reflexivity; try discriminate.
Qed.

(** The luminance normalisation of the Light commands, for every Number:
    the result is NaN only on NaN, and otherwise lies between 0 and 100. *)
Lemma luminance_within (y : float) :
  let t := JS.Math_max 0 (JS.Math_min 100 y) in
  (is_nan y = true /\ is_nan t = true)
  \/ (is_nan y = false /\ is_nan t = false
      /\ (0 <=? t)%float = true /\ (t <=? 100)%float = true).
Proof.
  cbv zeta. unfold JS.Math_min.
  change (is_nan 100) with false. change (get_sign 100) with false.
  cbn [orb].
  destruct (is_nan y) eqn:Hnan; [left; split; reflexivity|].
  right. split; [reflexivity|].
  assert (Hu : (100 <? y)%float = false ->
               is_nan (JS.Math_max 0 y) = false
               /\ (0 <=? JS.Math_max 0 y)%float = true
               /\ (JS.Math_max 0 y <=? 100)%float = true).
  { intros Hlt. unfold JS.Math_max.
    change (is_nan 0) with false. change (get_sign 0) with false.
    cbn [orb]. rewrite Hnan.
    destruct (0 <? y)%float eqn:H0.
    - split; [exact Hnan|]. split.
      + rewrite FloatAxioms.leb_spec. apply SF_lt_le.
        rewrite <- FloatAxioms.ltb_spec. exact H0.
      + rewrite FloatAxioms.leb_spec.
        change (Prim2SF 100) with (S754_finite false 7036874417766400 (-46)).
        apply SF_not_lt_le.
        * unfold is_nan in Hnan. rewrite FloatAxioms.eqb_spec in Hnan.
          apply negb_false_iff in Hnan. exact Hnan.
        * rewrite FloatAxioms.ltb_spec in Hlt. exact Hlt.
    - destruct (y <? 0)%float; repeat split; reflexivity. }
  destruct (100 <? y)%float eqn:Hlt.
  - repeat split; reflexivity.
  - destruct (y <? 100)%float; apply Hu; reflexivity.
Qed.

Lemma luminance_nan_or_within (y : float) :
  Facts.nan_or_within 100 (JS.Math_max 0 (JS.Math_min 100 y)).
Proof.
  unfold Facts.nan_or_within.
  destruct (luminance_within y) as [[_ H] | [_ [_ H]]]; [left | right]; exact H.
Qed.

Lemma percent_grid_checked :
  forallb Facts.percent_point_ok (Range.zrange 0 101) = true.
Proof. vm_cast_no_check (eq_refl true). Qed.

Lemma percent_checked (p : Z) :
  0 <= p <= 100 ->
  JS.Math_max 0 (JS.Math_min 100 (JS.Math_round (JS.Z2f p))) = JS.Z2f p.
Proof.
  intros Hp. apply FloatAxioms.Leibniz.eqb_spec.
  apply (zrange_forallb Facts.percent_point_ok 0 101 percent_grid_checked). lia.
Qed.

Section LightCommands.
Import MerossHttp.
Local Open Scope string_scope.

Variable env : Env.

(** X7. The two Light commands, for every luminance and every integer colour:
    exactly one POST on the Light namespace; the luminance sent is NaN (only
    when the rounded argument is) or lies between 0 and 100, and an integer
    percentage of 0..100 is sent as it is; [merossSetRgbAndBrightness] sends
    capacity 5 with the colour reduced modulo 2^32, [merossSetBrightness]
    capacity 4 without a colour. *)
Theorem light_commands_send_bounded_values
    (ip key : string) (channel rgb24 : Z) (luminance : float) (net : Net) :
  exists (o1 o2 : Outcome ResponseValue) (p1 p2 : HttpPost) (lum : float),
    merossSetRgbAndBrightness env ip key channel rgb24 luminance net
    = (o1, (net ++ [p1])%list)
    /\ merossSetBrightness env ip key channel luminance net
       = (o2, (net ++ [p2])%list)
    /\ payload (body p1) = LightPayload (Some (rgb24 mod 2 ^ 32)) 5 lum channel
    /\ payload (body p2) = LightPayload None 4 lum channel
    /\ namespace (header (body p1)) = "Appliance.Control.Light"
    /\ namespace (header (body p2)) = "Appliance.Control.Light"
    /\ 0 <= rgb24 mod 2 ^ 32 < 2 ^ 32
    /\ Facts.nan_or_within 100 lum
    /\ (is_nan lum = true -> is_nan (JS.Math_round luminance) = true)
    /\ (forall p, 0 <= p <= 100 -> luminance = JS.Z2f p -> lum = JS.Z2f p).
Proof.
  unfold merossSetRgbAndBrightness, merossSetBrightness.
  rewrite !merossPostConfig_run. cbv zeta.
  eexists. eexists. eexists. eexists. eexists.
  split; [reflexivity|]. split; [reflexivity|].
  split; [reflexivity|]. split; [reflexivity|].
  split; [reflexivity|]. split; [reflexivity|].
  split; [apply Z.mod_pos_bound; reflexivity|].
  split; [apply luminance_nan_or_within|].
  split.
  - intros Hn.
    destruct (luminance_within (JS.Math_round luminance)) as [[H _] | [_ [H _]]];
      [exact H | cbv zeta in H; congruence].
  - intros p Hp ->. apply percent_checked. exact Hp.
Qed.

End LightCommands.

(** ** What the handlers of a device put on the network *)

Section Requests.
Import Text MerossHttp Platform Facts.
Local Open Scope string_scope.

Variable env : Env.
Variable d : Config.MerossDeviceConfig.

(** X8. The power commands: [on] and [off] issue exactly one POST, on the
    ToggleX namespace, with [onoff] 1 and 0 on the device's channel (0 when the
    configuration gives none); they are rejected exactly when that call is, and
    they leave the caches and the registered endpoints as they are. *)
Theorem power_commands_toggle_once (s : State) :
  exists (p_on p_off : HttpPost),
    on env d s
    = (void (settled env (fetch env (List.length (net s)) p_on)),
       with_net (net s ++ [p_on])%list s)
    /\ off env d s
       = (void (settled env (fetch env (List.length (net s)) p_off)),
          with_net (net s ++ [p_off])%list s)
    /\ payload (body p_on)
       = TogglexPayload (match Config.channel d with Some c => c | None => 0 end) 1
    /\ payload (body p_off)
       = TogglexPayload (match Config.channel d with Some c => c | None => 0 end) 0
    /\ namespace (header (body p_on)) = "Appliance.Control.ToggleX"
    /\ namespace (header (body p_off)) = "Appliance.Control.ToggleX"
    /\ invoke env d "on" {| request := None |} s = on env d s
    /\ invoke env d "off" {| request := None |} s = off env d s.
Proof.
  assert (Hon : invoke env d "on" {| request := None |} s = on env d s)
    by reflexivity.
  assert (Hoff : invoke env d "off" {| request := None |} s = off env d s)
    by reflexivity.
  rewrite Hon, Hoff. clear Hon Hoff.
  unfold on, off, bind, merossToggleX. rewrite !liftNet_post. cbv zeta.
  exists (post_of env (List.length (net s)) (device_ip d) (device_key d)
            "Appliance.Control.ToggleX" SET
            (TogglexPayload (device_channel d) 1) default_timeoutMs).
  exists (post_of env (List.length (net s)) (device_ip d) (device_key d)
            "Appliance.Control.ToggleX" SET
            (TogglexPayload (device_channel d) 0) default_timeoutMs).
  split; [destruct (settled env _); reflexivity|].
  split; [destruct (settled env _); reflexivity|].
  repeat split; reflexivity.
Qed.

Lemma post_of_is_device_post (n : nat) (ns : string) (p : Payload) :
  handler_payload (device_channel d) ns p ->
  device_post d (post_of env n (device_ip d) (device_key d) ns SET p
                   default_timeoutMs).
Proof.
  intros Hp. unfold device_post, post_of. cbv zeta.
  cbn [url body header payload timeoutMs buildMerossRequest from method
       payloadVersion messageId sign timestamp namespace].
  split; [reflexivity|]. split; [reflexivity|]. split; [reflexivity|].
  split; [reflexivity|].
  split; [unfold createMerossMessageId;
          rewrite hex_length, randomBytes_length; reflexivity|].
  split; [reflexivity|]. split; [reflexivity | exact Hp].
Qed.

Lemma light_post_is_device_post (s : State) :
  device_post d (light_post env d s).
Proof.
  unfold light_post. cbv zeta. apply post_of_is_device_post.
  right. split; [reflexivity|]. eexists. eexists.
  split; [reflexivity|].
  split; [apply Z.mod_pos_bound; reflexivity | apply luminance_nan_or_within].
Qed.

Lemma toggle_post_is_device_post (n : nat) (on : bool) :
  device_post d (post_of env n (device_ip d) (device_key d)
                   "Appliance.Control.ToggleX" SET
                   (TogglexPayload (device_channel d) (if on then 1 else 0))
                   default_timeoutMs).
Proof.
  apply post_of_is_device_post. left. split; [reflexivity|].
  eexists. split; [reflexivity|]. destruct on; [right | left]; reflexivity.
Qed.

Lemma posts_none (h : CommandData -> Async State unit) (data : CommandData)
    (s : State) :
  net (snd (h data s)) = net s -> registered (snd (h data s)) = registered s ->
  exists posts : list HttpPost,
    net (snd (h data s)) = (net s ++ posts)%list
    /\ (List.length posts <= 2)%nat
    /\ Forall (device_post d) posts
    /\ registered (snd (h data s)) = registered s.
Proof.
  intros Hn Hr. exists []. rewrite app_nil_r.
  split; [exact Hn|]. split; [cbn; lia|]. split; [constructor | exact Hr].
Qed.

Lemma send_light_posts (s : State) :
  net (snd (send_light env d s)) = (net s ++ [light_post env d s])%list
  /\ registered (snd (send_light env d s)) = registered s.
Proof. rewrite send_light_run. split; reflexivity. Qed.

Lemma toggle_posts (on : bool) :
  posts_for_device d (fun _ => _ <- liftNet (merossToggleX env (device_ip d)
                                            (device_key d) (device_channel d) on) ;;
                             ret tt).
Proof.
  intros data s. unfold bind, merossToggleX. rewrite liftNet_post. cbv zeta.
  eexists [_].
  split; [destruct (settled env _); reflexivity|].
  split; [cbn; lia|].
  split; [constructor; [apply toggle_post_is_device_post | constructor]|].
  destruct (settled env _); reflexivity.
Qed.

Lemma moveToLevel_posts : posts_for_device d (moveToLevel env d).
Proof.
  intros data s.
  destruct (JS.Number_isFinite (request_level data)) eqn:Hfin.
  - rewrite (moveToLevel_run env d data s Hfin).
    destruct (send_light_posts
                (with_cache (device_id d)
                   {| lastRgb := lastRgb (caches s (device_id d));
                      lastLum := level_percent (request_level data) |} s))
      as [Hn Hr].
    eexists [_]. split; [exact Hn|]. split; [cbn; lia|].
    split; [constructor; [apply light_post_is_device_post | constructor]|].
    exact Hr.
  - apply posts_none; unfold moveToLevel; rewrite Hfin; reflexivity.
Qed.

Lemma moveToHueAndSaturation_posts :
  posts_for_device d (moveToHueAndSaturation env d).
Proof.
  intros data s.
  destruct (JS.Number_isFinite (request_hue data)) eqn:Hh;
    [destruct (JS.Number_isFinite (request_saturation data)) eqn:Hs|].
  - rewrite (moveToHueAndSaturation_run env d data s Hh Hs).
    destruct (send_light_posts
                (with_cache (device_id d)
                   {| lastRgb := Color.hsvToRgbInt (request_hue data)
                                   (request_saturation data);
                      lastLum := lastLum (caches s (device_id d)) |} s))
      as [Hn Hr].
    eexists [_]. split; [exact Hn|]. split; [cbn; lia|].
    split; [constructor; [apply light_post_is_device_post | constructor]|].
    exact Hr.
  - apply posts_none; unfold moveToHueAndSaturation; rewrite Hh, Hs; reflexivity.
  - apply posts_none; unfold moveToHueAndSaturation; rewrite Hh; reflexivity.
Qed.

Lemma moveToLevelWithOnOff_posts :
  posts_for_device d (moveToLevelWithOnOff env d).
Proof.
  intros data s.
  destruct (JS.Number_isFinite (request_level data)) eqn:Hfin.
  - rewrite (moveToLevelWithOnOff_run env d data s Hfin). cbv zeta.
    set (s1 := with_cache (device_id d) _ s).
    destruct (0 <? level_percent (request_level data))%float.
    + destruct (settled env _).
      * destruct (send_light_posts
                    (with_net (net s ++ [power_on_post env d s1])%list s1))
          as [Hn Hr].
        eexists [_; _].
        split; [rewrite Hn; cbn [net with_net]; rewrite <- app_assoc;
                reflexivity|].
        split; [cbn; lia|].
        split; [|exact Hr].
        constructor; [apply (toggle_post_is_device_post _ true)|].
        constructor; [apply light_post_is_device_post | constructor].
      * eexists [_]. split; [reflexivity|]. split; [cbn; lia|].
        split; [|reflexivity].
        constructor; [apply (toggle_post_is_device_post _ true) | constructor].
    + destruct (send_light_posts s1) as [Hn Hr].
      eexists [_]. split; [exact Hn|]. split; [cbn; lia|].
      split; [constructor; [apply light_post_is_device_post | constructor]|].
      exact Hr.
  - apply posts_none; unfold moveToLevelWithOnOff; rewrite Hfin; reflexivity.
Qed.

(** X9. Whatever command the host invokes on a device and whatever the
    request holds, the handler issues at most two POSTs and never registers
    anything; each POST goes to [http://<ip>/config] of that device with the
    default timeout, in a [SET] envelope of payload version 1 that names the
    same address, has a message id of 32 characters and is signed, for its
    own message id and timestamp, with the device's key; it is a ToggleX
    payload with [onoff] 0 or 1, or a Light payload of capacity 5 whose colour
    is below 2^32 and whose luminance is NaN or between 0 and 100, on the
    device's channel. *)
Theorem invoke_posts_signed_requests (name : string) :
  posts_for_device d (invoke env d name).
Proof.
  unfold invoke.
  destruct (lookup_handler name (commandHandlers env d)) as [h|] eqn:Hl.
  - destruct (lookup_handler_In _ _ _ Hl) as [n Hin].
    unfold commandHandlers in Hin. cbn [In] in Hin.
    destruct Hin as [E | [E | [E | [E | [E | [E | []]]]]]];
      injection E as _ <-.
    + apply (toggle_posts true).
    + apply (toggle_posts false).
    + apply moveToLevel_posts.
    + apply moveToLevelWithOnOff_posts.
    + apply moveToHueAndSaturation_posts.
    + intros data s. apply (posts_none (moveToColor env d) data s); reflexivity.
  - intros data s. apply (posts_none (fun _ => ret tt) data s); reflexivity.
Qed.

End Requests.

(** ** The brightness conversion and the intents that combine with it *)

Lemma percent_closed_grid_checked :
  forallb Facts.percent_closed_ok (Range.zrange 0 255) = true.
Proof. vm_cast_no_check (eq_refl true). Qed.

Lemma percent_closed (c : Z) :
  0 <= c <= 254 -> Platform.percent_of_level c = (200 * c + 254) / 508.
Proof.
  intros Hc. apply Z.eqb_eq.
  apply (zrange_forallb Facts.percent_closed_ok 0 255 percent_closed_grid_checked).
  lia.
Qed.

Lemma percent_range (c : Z) :
  0 <= c <= 254 -> 0 <= Platform.percent_of_level c <= 100.
Proof.
  intros Hc. rewrite (percent_closed c Hc).
  split; [apply Z.div_pos; lia|].
  assert (H : (200 * c + 254) / 508 < 101)
    by (apply Z.div_lt_upper_bound; lia).
  lia.
Qed.

Lemma percent_zero (c : Z) :
  0 <= c <= 254 -> (Platform.percent_of_level c = 0 <-> c <= 1).
Proof.
  intros Hc. rewrite (percent_closed c Hc).
  split; intros H.
  - assert (H508 : 200 * c + 254 < 508); [|lia].
    apply Z.div_small_iff in H; lia.
  - apply Z.div_small. lia.
Qed.

Lemma level_percent_of_clamped (raw : float) (c : Z) :
  Color.clamp raw 0 254 = JS.Z2f c -> 0 <= c <= 254 ->
  Platform.level_percent raw = JS.Z2f (Platform.percent_of_level c).
Proof.
  intros Hclamp Hc. unfold Platform.level_percent. rewrite Hclamp.
  apply level_checked. exact Hc.
Qed.

(** X10. The brightness conversion on integer levels of 0..254, as the code
    computes it in binary64: the result is the integer
    [floor ((200 c + 254) / 508)], it lies in 0..100, it does not decrease
    when the level grows, it is 0 exactly for the levels 0 and 1 and 100
    exactly for the levels 253 and 254. *)
Theorem level_percent_is_monotone (a b : Z) :
  0 <= a -> a <= b -> b <= 254 ->
  exists pa pb : Z,
    Platform.level_percent (JS.Z2f a) = JS.Z2f pa
    /\ Platform.level_percent (JS.Z2f b) = JS.Z2f pb
    /\ pa = (200 * a + 254) / 508
    /\ pb = (200 * b + 254) / 508
    /\ 0 <= pa /\ pa <= pb /\ pb <= 100
    /\ (pa = 0 <-> a <= 1)
    /\ (pb = 100 <-> 253 <= b).
Proof.
  intros Ha Hab Hb.
  assert (Hra : 0 <= a <= 254) by lia.
  assert (Hrb : 0 <= b <= 254) by lia.
  exists (Platform.percent_of_level a), (Platform.percent_of_level b).
  split; [apply level_percent_of_clamped; [apply clamp_checked|]; exact Hra|].
  split; [apply level_percent_of_clamped; [apply clamp_checked|]; exact Hrb|].
  split; [apply percent_closed; exact Hra|].
  split; [apply percent_closed; exact Hrb|].
  split; [apply percent_range; exact Hra|].
  split; [rewrite (percent_closed a Hra), (percent_closed b Hrb);
          apply Z.div_le_mono; lia|].
  split; [apply percent_range; exact Hrb|].
  split; [apply percent_zero; exact Hra|].
  rewrite (percent_closed b Hrb). split; intros H.
  - assert (H1 : 100 * 508 <= 200 * b + 254); [|lia].
    rewrite <- H. rewrite Z.mul_comm. apply Z.mul_div_le. lia.
  - apply Z.le_antisymm.
    + assert (H1 : (200 * b + 254) / 508 < 101)
        by (apply Z.div_lt_upper_bound; lia).
      lia.
    + apply Z.div_le_lower_bound; lia.
Qed.

Section Intents.
Import Text MerossHttp Platform Facts.
Local Open Scope string_scope.

Variable env : Env.
Variable d : Config.MerossDeviceConfig.

(** The Light POST in a state whose cache holds a packed colour and an
    integer percentage. *)
Lemma light_post_of_cache (s : State) (rgb p : Z) :
  caches s (device_id d) = {| lastRgb := rgb; lastLum := JS.Z2f p |} ->
  0 <= rgb < 2 ^ 32 -> 0 <= p <= 100 ->
  light_post env d s
  = post_of env (List.length (net s)) (device_ip d) (device_key d)
      "Appliance.Control.Light" SET
      (LightPayload (Some rgb) 5 (JS.Z2f p) (device_channel d))
      default_timeoutMs.
Proof.
  intros Hc Hrgb Hp. unfold light_post. cbv zeta. rewrite Hc.
  cbn [lastRgb lastLum]. rewrite (percent_checked p Hp).
  unfold JS.ushr0, JS.uint32. rewrite Z.mod_small by exact Hrgb.
  reflexivity.
Qed.

Lemma moveToHueAndSaturation_effect (data : CommandData) (s : State) (p : Z) :
  JS.Number_isFinite (request_hue data) = true ->
  JS.Number_isFinite (request_saturation data) = true ->
  lastLum (caches s (device_id d)) = JS.Z2f p ->
  0 <= p <= 100 ->
  let color := Color.hsvToRgbInt (request_hue data) (request_saturation data) in
  let cache' := {| lastRgb := color; lastLum := JS.Z2f p |} in
  let post := post_of env (List.length (net s)) (device_ip d) (device_key d)
                "Appliance.Control.Light" SET
                (LightPayload (Some color) 5 (JS.Z2f p) (device_channel d))
                default_timeoutMs in
  moveToHueAndSaturation env d data s
  = (void (settled env (fetch env (List.length (net s)) post)),
     after d cache' post s).
Proof.
  intros Hh Hs Hlum Hp color cache' post.
  rewrite (moveToHueAndSaturation_run env d data s Hh Hs).
  fold color. rewrite Hlum. fold cache'.
  assert (Hrange : 0 <= color < 2 ^ 32).
  { pose proof (hsvToRgbInt_any_range (request_hue data)
                  (request_saturation data)) as R.
    fold color in R. clearbody color.
    change (2 ^ 24) with 16777216 in R. change (2 ^ 32) with 4294967296. lia. }
  rewrite send_light_run.
  rewrite (light_post_of_cache (with_cache (device_id d) cache' s) color p
             (with_cache_same _ _ _) Hrange Hp).
  reflexivity.
Qed.

(** X11. The colour intent: for finite hue and saturation, when the cached
    luminance is an integer percentage of 0..100, the handler caches the
    colour [hsvToRgbInt hue sat], keeps the cached luminance, and issues
    exactly one POST, on the Light namespace, with capacity 5, the new colour
    and the cached luminance; it is rejected exactly when that call is. *)
Theorem moveToHueAndSaturation_sends_cached_luminance
    (data : CommandData) (s : State) (p : Z) :
  JS.Number_isFinite (request_hue data) = true ->
  JS.Number_isFinite (request_saturation data) = true ->
  lastLum (caches s (device_id d)) = JS.Z2f p ->
  0 <= p <= 100 ->
  let color := Color.hsvToRgbInt (request_hue data) (request_saturation data) in
  exists post : HttpPost,
    moveToHueAndSaturation env d data s
    = (void (settled env (fetch env (List.length (net s)) post)),
       after d {| lastRgb := color; lastLum := JS.Z2f p |} post s)
    /\ payload (body post)
       = LightPayload (Some color) 5 (JS.Z2f p) (device_channel d)
    /\ namespace (header (body post)) = "Appliance.Control.Light"
    /\ net (after d {| lastRgb := color; lastLum := JS.Z2f p |} post s)
       = (net s ++ [post])%list
    /\ caches (after d {| lastRgb := color; lastLum := JS.Z2f p |} post s)
              (device_id d)
       = {| lastRgb := color; lastLum := JS.Z2f p |}
    /\ 0 <= color < 2 ^ 24.
Proof.
  intros Hh Hs Hlum Hp color.
  rewrite (moveToHueAndSaturation_effect data s p Hh Hs Hlum Hp).
  eexists. split; [reflexivity|]. split; [reflexivity|].
  split; [reflexivity|]. split; [reflexivity|].
  split; [unfold after, with_net; cbn [caches]; apply with_cache_same|].
  apply hsvToRgbInt_any_range.
Qed.

(** X12. A brightness request followed by a colour request on the same
    device: the POST of the second call carries the luminance cached by the
    first call together with the new colour, whatever the device answered to
    the first call. *)
Theorem level_then_hue_sends_the_level_luminance
    (data1 data2 : CommandData) (s : State) (c : Z) :
  JS.Number_isFinite (request_level data1) = true ->
  Color.clamp (request_level data1) 0 254 = JS.Z2f c ->
  0 <= c <= 254 ->
  0 <= lastRgb (caches s (device_id d)) < 2 ^ 32 ->
  JS.Number_isFinite (request_hue data2) = true ->
  JS.Number_isFinite (request_saturation data2) = true ->
  let lum := JS.Z2f (percent_of_level c) in
  let color := Color.hsvToRgbInt (request_hue data2) (request_saturation data2) in
  exists (o1 o2 : Outcome unit) (s1 s2 : State) (p1 p2 : HttpPost),
    moveToLevel env d data1 s = (o1, s1)
    /\ moveToHueAndSaturation env d data2 s1 = (o2, s2)
    /\ net s2 = (net s ++ [p1; p2])%list
    /\ payload (body p1)
       = LightPayload (Some (lastRgb (caches s (device_id d)))) 5 lum
           (device_channel d)
    /\ payload (body p2) = LightPayload (Some color) 5 lum (device_channel d)
    /\ caches s2 (device_id d) = {| lastRgb := color; lastLum := lum |}.
Proof.
  intros Hfl Hl Hc Hrgb Hh Hs lum color.
  rewrite (moveToLevel_effect env d data1 s c Hfl Hl Hc Hrgb). cbv zeta.
  fold lum.
  set (c1 := {| lastRgb := lastRgb (caches s (device_id d)); lastLum := lum |}).
  set (p1 := post_of env _ _ _ _ _ _ _).
  set (s1 := after d c1 p1 s).
  assert (Hc1 : caches s1 (device_id d) = c1)
    by (unfold s1, after, with_net; cbn [caches]; apply with_cache_same).
  assert (Hlum1 : lastLum (caches s1 (device_id d)) = lum)
    by (rewrite Hc1; reflexivity).
  pose proof (moveToHueAndSaturation_effect data2 s1 (percent_of_level c)
                Hh Hs Hlum1 (percent_range c Hc)) as Hrun.
  cbv zeta in Hrun. fold color lum in Hrun.
  eexists. eexists. exists s1. eexists. exists p1. eexists.
  split; [reflexivity|]. split; [exact Hrun|].
  split; [unfold after, with_net, s1, after, with_net; cbn [net];
          rewrite <- app_assoc; reflexivity|].
  split; [reflexivity|]. split; [reflexivity|].
  unfold after, with_net; cbn [caches]; apply with_cache_same.
Qed.

(** X13. The brightness intent with on/off on a level whose clamped value is
    an integer [c] of 0..254.  For [c <= 1] the luminance is 0: no ToggleX is
    sent, the only POST is the Light payload with luminance 0 and the cached
    colour (the device is not switched off).  For [c >= 2], when the power-on
    call is fulfilled, exactly two POSTs are issued, the ToggleX with
    [onoff] 1 and then the Light payload with the new luminance and the
    cached colour. *)
Theorem moveToLevelWithOnOff_on_integer_levels
    (data : CommandData) (s : State) (c : Z) :
  JS.Number_isFinite (request_level data) = true ->
  Color.clamp (request_level data) 0 254 = JS.Z2f c ->
  0 <= c <= 254 ->
  0 <= lastRgb (caches s (device_id d)) < 2 ^ 32 ->
  let rgb := lastRgb (caches s (device_id d)) in
  let lum := JS.Z2f (percent_of_level c) in
  let cache' := {| lastRgb := rgb; lastLum := lum |} in
  (c <= 1 ->
     exists (o : Outcome unit) (light : HttpPost),
       moveToLevelWithOnOff env d data s = (o, after d cache' light s)
       /\ payload (body light) = LightPayload (Some rgb) 5 0 (device_channel d)
       /\ lum = 0%float)
  /\ (2 <= c ->
      forall v,
        settled env (fetch env (List.length (net s))
                       (power_on_post env d (with_cache (device_id d) cache' s)))
        = Fulfilled v ->
        exists (o : Outcome unit) (toggle light : HttpPost),
          moveToLevelWithOnOff env d data s
          = (o, with_net (net s ++ [toggle; light])%list
                  (with_cache (device_id d) cache' s))
          /\ payload (body toggle) = TogglexPayload (device_channel d) 1
          /\ payload (body light) = LightPayload (Some rgb) 5 lum (device_channel d)).
Proof.
  intros Hfin Hclamp Hc Hrgb rgb lum cache'.
  pose proof (moveToLevelWithOnOff_run env d data s Hfin) as Hrun.
  cbv zeta in Hrun.
  rewrite (level_percent_of_clamped _ c Hclamp Hc) in Hrun.
  fold rgb lum cache' in Hrun.
  destruct (level_checked c Hc) as [_ [_ Hpos]]. fold lum in Hpos.
  rewrite Hpos in Hrun. clear Hpos.
  pose proof (percent_range c Hc) as Hp.
  pose proof (percent_zero c Hc) as Hz.
  set (s1 := with_cache (device_id d) cache' s) in *.
  assert (Hc1 : caches s1 (device_id d) = cache') by apply with_cache_same.
  split.
  - intros Hle. assert (Hp0 : percent_of_level c = 0) by (apply Hz; exact Hle).
    assert (Hlt : (0 <? percent_of_level c)%Z = false)
      by (rewrite Hp0; reflexivity).
    rewrite Hlt in Hrun. rewrite send_light_run in Hrun.
    rewrite (light_post_of_cache s1 rgb (percent_of_level c) Hc1 Hrgb Hp) in Hrun.
    assert (Hlum0 : lum = 0%float) by (unfold lum; rewrite Hp0; reflexivity).
    eexists. eexists. split; [exact Hrun|].
    split; [|exact Hlum0].
    cbn [post_of body payload]. fold lum. rewrite Hlum0. reflexivity.
  - intros Hge v Hv.
    assert (Hlt : (0 <? percent_of_level c)%Z = true).
    { apply Z.ltb_lt. destruct (Z.eq_dec (percent_of_level c) 0) as [E | E];
        [apply Hz in E; lia | lia]. }
    rewrite Hlt, Hv in Hrun. rewrite send_light_run in Hrun.
    set (s2 := with_net (net s ++ [power_on_post env d s1])%list s1) in *.
    assert (Hc2 : caches s2 (device_id d) = cache') by exact Hc1.
    rewrite (light_post_of_cache s2 rgb (percent_of_level c) Hc2 Hrgb Hp) in Hrun.
    eexists. eexists. eexists. split.
    + rewrite Hrun. f_equal. unfold s2, with_net. cbn [net caches registered].
      rewrite <- app_assoc. reflexivity.
    + split; reflexivity.
Qed.

End Intents.

(** ** Landmarks of the colour conversion *)

(** In the textbook conversion one channel carries the full value. *)
Lemma Qround_full_value (s : Q) :
  Color.Qround ((1 * s + (1 - 1 * s)) * 255) = 255.
Proof.
  unfold Color.Qround.
  assert (E : ((1 * s + (1 - 1 * s)) * 255 + (1 # 2) == 511 # 2)%Q) by ring.
  rewrite (Qfloor_comp _ _ E). reflexivity.
Qed.

Lemma hsv_reference_full_channel (hue sat : Z) :
  forall r g b,
    Color.hsv_reference hue sat = (r, g, b) -> r = 255 \/ g = 255 \/ b = 255.
Proof.
  intros r g b. unfold Color.hsv_reference. cbv zeta.
  pose proof (Qround_full_value (inject_Z sat / 254)) as Hfull.
  set (top := Color.Qround _) in Hfull.
  destruct (Qfloor (inject_Z hue / 254 * 360 / 60) mod 6)
    as [|[[|[]|]|[|[]|]|]|]; intros [= <- <- <-]; fold top; rewrite Hfull; tauto.
Qed.

Lemma hue_landmarks_grid_checked :
  forallb Facts.hue_landmarks_ok (Range.zrange 0 255) = true.
Proof. vm_cast_no_check (eq_refl true). Qed.

(** X14. Landmarks of [hsvToRgbInt] on the integers of 0..254: one of the
    three channels is always 255 (the value is at its maximum); with
    saturation 0 every hue gives white, [0xffffff]; and hue 254, the full turn,
    gives for every saturation the colour of hue 0. *)
Theorem hsvToRgbInt_landmarks (hue sat : Z) :
  0 <= hue <= 254 -> 0 <= sat <= 254 ->
  (exists r g b,
     Color.unpackRgb (Color.hsvToRgbInt (JS.Z2f hue) (JS.Z2f sat)) = (r, g, b)
     /\ (r = 255 \/ g = 255 \/ b = 255))
  /\ Color.hsvToRgbInt (JS.Z2f hue) 0 = 0xffffff
  /\ Color.hsvToRgbInt 254 (JS.Z2f sat) = Color.hsvToRgbInt 0 (JS.Z2f sat).
Proof.
  intros Hh Hs. split.
  - destruct (hsv_point_checked hue sat Hh Hs)
      as [r [g [b [Href [Hcode [Hr [Hg Hb]]]]]]].
    exists r, g, b. split.
    + rewrite Hcode. apply unpack_pack; assumption.
    + exact (hsv_reference_full_channel hue sat r g b Href).
  - assert (H1 : Facts.hue_landmarks_ok hue = true)
      by (apply (zrange_forallb Facts.hue_landmarks_ok 0 255
                   hue_landmarks_grid_checked); lia).
    assert (H2 : Facts.hue_landmarks_ok sat = true)
      by (apply (zrange_forallb Facts.hue_landmarks_ok 0 255
                   hue_landmarks_grid_checked); lia).
    clear Hh Hs. unfold Facts.hue_landmarks_ok in H1, H2.
    apply andb_true_iff in H1, H2.
    destruct H1 as [H1 _]. destruct H2 as [_ H2].
    apply Z.eqb_eq in H1, H2. split; assumption.
Qed.

(** ** Inputs outside the range *)

Lemma SF_lt_not_nan (a b : spec_float) :
  SFltb a b = true -> SFeqb a a = true /\ SFeqb b b = true.
Proof.
  assert (Hrefl : forall x, x <> S754_nan -> SFeqb x x = true).
  { intros [s | s | | s m e] Hx; unfold SFeqb; cbn.
    - reflexivity.
    - destruct s; reflexivity.
    - contradiction.
    - rewrite Z.compare_refl, Pos.compare_cont_refl. destruct s; reflexivity. }
  unfold SFltb. intros H.
  split; apply Hrefl; intros E; rewrite E in H;
    [|destruct a]; discriminate.
Qed.

Lemma ltb_not_nan (a b : float) :
  (a <? b)%float = true -> is_nan a = false /\ is_nan b = false.
Proof.
  rewrite FloatAxioms.ltb_spec. intros H.
  destruct (SF_lt_not_nan _ _ H) as [Ha Hb].
  unfold is_nan. rewrite !FloatAxioms.eqb_spec, Ha, Hb. split; reflexivity.
Qed.

(** A Number above 254 is clamped to 254. *)
Lemma clamp_above (x : float) :
  (254 <? x)%float = true -> Color.clamp x 0 254 = 254%float.
Proof.
  intros H. destruct (ltb_not_nan _ _ H) as [_ Hn].
  unfold Color.clamp, JS.Math_min.
  change (is_nan 254) with false. rewrite Hn, H. reflexivity.
Qed.

(** A Number below 0 is clamped to 0. *)
Lemma clamp_below (x : float) :
  (x <? 0)%float = true -> Color.clamp x 0 254 = 0%float.
Proof.
  intros H. destruct (ltb_not_nan _ _ H) as [Hn _].
  assert (Hcmp : (254 <? x)%float = false /\ (x <? 254)%float = true
                 /\ (0 <? x)%float = false).
  { rewrite !FloatAxioms.ltb_spec in *.
    change (Prim2SF 0) with (S754_zero false) in *.
    change (Prim2SF 254) with (S754_finite false 8936830510563328 (-45)).
    destruct (Prim2SF x) as [s | s | | s m e]; try discriminate.
    - destruct s; [|discriminate]. repeat split; reflexivity.
    - destruct s; [|discriminate]. repeat split; reflexivity. }
  destruct Hcmp as [H1 [H2 H3]].
  unfold Color.clamp, JS.Math_min, JS.Math_max.
  change (is_nan 254) with false. change (is_nan 0) with false.
  rewrite Hn, H1, H2. cbn [orb]. rewrite Hn, H3, H. reflexivity.
Qed.

(** Clamping twice is clamping once, for every Number. *)
Lemma clamp_idempotent (x : float) :
  Color.clamp (Color.clamp x 0 254) 0 254 = Color.clamp x 0 254.
Proof.
  assert (Hkeep : forall u, is_nan u = false -> (254 <? u)%float = false ->
                    (0 <? u)%float = true -> Color.clamp u 0 254 = u).
  { intros u Hn H254 H0. unfold Color.clamp, JS.Math_min, JS.Math_max.
    change (is_nan 254) with false. change (is_nan 0) with false.
    change (get_sign 254) with false.
    rewrite Hn, H254. cbn [orb].
    destruct (u <? 254)%float; rewrite Hn, H0; reflexivity. }
  unfold Color.clamp at 2 3. unfold JS.Math_min.
  change (is_nan 254) with false. change (get_sign 254) with false.
  cbn [orb].
  destruct (is_nan x) eqn:Hn; [reflexivity|].
  destruct (254 <? x)%float eqn:H254; [reflexivity|].
  assert (Hu : Color.clamp (JS.Math_max 0 x) 0 254 = JS.Math_max 0 x).
  { unfold JS.Math_max at 1 2.
    change (is_nan 0) with false. change (get_sign 0) with false.
    cbn [orb]. rewrite Hn.
    destruct (0 <? x)%float eqn:H0; [apply Hkeep; assumption|].
    destruct (x <? 0)%float; reflexivity. }
  destruct (x <? 254)%float; exact Hu.
Qed.

(** X15. [hsvToRgbInt] sees its arguments through [clamp] only, for every
    Number: a hue or saturation above 254 counts as 254 and one below 0 as 0,
    and whenever the clamped hue and saturation are integers the result is the
    packed colour of the reference conversion at these integers. *)
Theorem hsvToRgbInt_saturates (hue sat : float) :
  Color.hsvToRgbInt hue sat
  = Color.hsvToRgbInt (Color.clamp hue 0 254) (Color.clamp sat 0 254)
  /\ ((254 <? hue)%float = true ->
        Color.hsvToRgbInt hue sat = Color.hsvToRgbInt 254 sat)
  /\ ((hue <? 0)%float = true ->
        Color.hsvToRgbInt hue sat = Color.hsvToRgbInt 0 sat)
  /\ ((254 <? sat)%float = true ->
        Color.hsvToRgbInt hue sat = Color.hsvToRgbInt hue 254)
  /\ ((sat <? 0)%float = true ->
        Color.hsvToRgbInt hue sat = Color.hsvToRgbInt hue 0)
  /\ (forall hc sc : Z,
        Color.clamp hue 0 254 = JS.Z2f hc -> Color.clamp sat 0 254 = JS.Z2f sc ->
        0 <= hc <= 254 -> 0 <= sc <= 254 ->
        Color.hsvToRgbInt hue sat = Color.packRgb (Color.hsv_reference hc sc)).
Proof.
  assert (Hdep : forall h1 s1 h2 s2,
             Color.clamp h1 0 254 = Color.clamp h2 0 254 ->
             Color.clamp s1 0 254 = Color.clamp s2 0 254 ->
             Color.hsvToRgbInt h1 s1 = Color.hsvToRgbInt h2 s2).
  { intros h1 s1 h2 s2 Eh Es. unfold Color.hsvToRgbInt. rewrite Eh, Es.
    reflexivity. }
  split; [apply Hdep; symmetry; apply clamp_idempotent|].
  split; [intros H; apply Hdep; [rewrite (clamp_above _ H)|]; reflexivity|].
  split; [intros H; apply Hdep; [rewrite (clamp_below _ H)|]; reflexivity|].
  split; [intros H; apply Hdep; [|rewrite (clamp_above _ H)]; reflexivity|].
  split; [intros H; apply Hdep; [|rewrite (clamp_below _ H)]; reflexivity|].
  intros hc sc Eh Es Hhc Hsc.
  rewrite (hsvToRgbInt_clamped hue sat hc sc Eh Es Hhc Hsc).
  destruct (hsv_point_checked hc sc Hhc Hsc) as [r [g [b [Href [Hcode _]]]]].
  rewrite Href. exact Hcode.
Qed.

(** ** The brightness intent on every level *)

(** Numbers that compare equal are the same Number, unless they are zeros. *)
Lemma SFeqb_same (x y : spec_float) :
  SFeqb x y = true -> SFeqb y (S754_zero false) = false -> x = y.
Proof.
  unfold SFeqb.
  destruct x as [sx | sx | | sx mx ex], y as [sy | sy | | sy my ey];
    cbn; try discriminate; try (destruct sx; discriminate);
    try (destruct sy; discriminate).
  - destruct sx, sy; intros H _; try discriminate; reflexivity.
  - intros H _.
    destruct sx, sy; try discriminate;
      destruct (Z.compare_spec ex ey) as [He | He | He]; try discriminate;
      change (PosDef.Pos.compare_cont Eq mx my) with (mx ?= my)%positive in H;
      destruct (Pos.compare_spec mx my) as [Hm | Hm | Hm];
      try discriminate; subst; reflexivity.
Qed.

Lemma eqb_same (a b : float) :
  (a =? b)%float = true -> (b =? 0)%float = false -> a = b.
Proof.
  rewrite !FloatAxioms.eqb_spec.
  change (Prim2SF 0) with (S754_zero false).
  intros Hab Hb.
  rewrite <- (FloatAxioms.SF2Prim_Prim2SF a), <- (FloatAxioms.SF2Prim_Prim2SF b).
  f_equal. apply SFeqb_same; assumption.
Qed.

Lemma levels_not_zero_checked :
  forallb (fun c => negb (JS.Z2f c =? 0)%float) (Range.zrange 1 254) = true.
Proof. vm_compute. reflexivity. Qed.

(** A zero of either sign is clamped to [+0]. *)
Lemma clamp_zero (x : float) :
  (x =? 0)%float = true -> Color.clamp x 0 254 = 0%float.
Proof.
  intros H.
  assert (Hcmp : is_nan x = false /\ (254 <? x)%float = false
                 /\ (x <? 254)%float = true /\ (0 <? x)%float = false
                 /\ (x <? 0)%float = false).
  { unfold is_nan. rewrite !FloatAxioms.ltb_spec, !FloatAxioms.eqb_spec in *.
    change (Prim2SF 0) with (S754_zero false) in *.
    change (Prim2SF 254) with (S754_finite false 8936830510563328 (-45)).
    destruct (Prim2SF x) as [s | s | | s m e];
      try discriminate; try (destruct s; discriminate).
    repeat split; reflexivity. }
  destruct Hcmp as [Hn [H1 [H2 [H3 H4]]]].
  unfold Color.clamp, JS.Math_min, JS.Math_max.
  change (is_nan 254) with false. change (is_nan 0) with false.
  rewrite Hn, H1, H2. cbn [orb]. rewrite Hn, H3, H4. reflexivity.
Qed.

(** [clamp] on a level that is the integer [c] of 0..254. *)
Lemma clamp_integer_level (raw : float) (c : Z) :
  (raw =? JS.Z2f c)%float = true -> 0 <= c <= 254 ->
  Color.clamp raw 0 254 = JS.Z2f c.
Proof.
  intros Heq Hc.
  destruct (Z.eq_dec c 0) as [-> | Hne].
  - exact (clamp_zero raw Heq).
  - assert (Hnz : negb (JS.Z2f c =? 0)%float = true)
      by (apply (zrange_forallb _ 1 254 levels_not_zero_checked); lia).
    apply negb_true_iff in Hnz.
    rewrite (eqb_same raw (JS.Z2f c) Heq Hnz).
    apply clamp_checked. exact Hc.
Qed.

(** What [clamp] makes of a level, from the level itself: an integer of
    0..254 is kept, a level above 254 counts as 254 and one below 0 as 0. *)
Lemma clamp_of_level (raw : float) (c : Z) :
  ((raw =? JS.Z2f c)%float = true /\ 0 <= c <= 254)
  \/ ((254 <? raw)%float = true /\ c = 254)
  \/ ((raw <? 0)%float = true /\ c = 0) ->
  Color.clamp raw 0 254 = JS.Z2f c /\ 0 <= c <= 254.
Proof.
  intros [[Heq Hc] | [[Hgt ->] | [Hlt ->]]].
  - split; [apply clamp_integer_level; assumption | exact Hc].
  - split; [exact (clamp_above raw Hgt) | lia].
  - split; [exact (clamp_below raw Hlt) | lia].
Qed.

Section Brightness.
Import Text MerossHttp Platform.
Local Open Scope string_scope.

Variable env : Env.
Variable d : Config.MerossDeviceConfig.

(** C2. The brightness handler, from the requested level itself.  For a
    finite level that is an integer [c] of 0..254, or lies above 254 (then
    [c] is 254), or lies below 0 (then [c] is 0), the code's conversion
    [Math.round((clamp(level, 0, 254) / 254) * 100)], computed in binary64,
    is the exact [round (c / 254 * 100)], a percentage of 0..100.  The handler
    stores it in the device's cache, leaves the cached colour as it is, and
    issues exactly one POST, on the Light namespace, whose payload has
    capacity 5, that luminance and the cached colour.  The code turns the
    levels 254, 0 and 127 into 100, 0 and 50. *)
Theorem moveToLevel_sends_cached_color (data : CommandData) (s : State) (c : Z) :
  let level := request_level data in
  JS.Number_isFinite level = true ->
  ((level =? JS.Z2f c)%float = true /\ 0 <= c <= 254)
  \/ ((254 <? level)%float = true /\ c = 254)
  \/ ((level <? 0)%float = true /\ c = 0) ->
  0 <= lastRgb (caches s (device_id d)) < 2 ^ 32 ->
  let rgb := lastRgb (caches s (device_id d)) in
  let lum := JS.Z2f (percent_of_level c) in
  exists (o : Outcome unit) (post : HttpPost),
    moveToLevel env d data s
    = (o, after d {| lastRgb := rgb; lastLum := lum |} post s)
    /\ level_percent level = lum
    /\ 0 <= percent_of_level c <= 100
    /\ payload (body post) = LightPayload (Some rgb) 5 lum (device_channel d)
    /\ namespace (header (body post)) = "Appliance.Control.Light"
    /\ method (header (body post)) = SET
    /\ url post = "http://" ++ device_ip d ++ "/config"
    /\ net (after d {| lastRgb := rgb; lastLum := lum |} post s)
       = (net s ++ [post])%list
    /\ caches (after d {| lastRgb := rgb; lastLum := lum |} post s) (device_id d)
       = {| lastRgb := rgb; lastLum := lum |}
    /\ level_percent 254 = 100%float
    /\ level_percent 0 = 0%float
    /\ level_percent 127 = 50%float
    /\ percent_of_level 254 = 100
    /\ percent_of_level 0 = 0
    /\ percent_of_level 127 = 50.
Proof.
  intros level Hfin Hlevel Hrgb rgb lum.
  destruct (clamp_of_level level c Hlevel) as [Hclamp Hc].
  rewrite (moveToLevel_effect env d data s c Hfin Hclamp Hc Hrgb).
  eexists. eexists. split; [reflexivity|].
  split; [exact (level_percent_of_clamped level c Hclamp Hc)|].
  split; [exact (percent_range c Hc)|].
  split; [reflexivity|]. split; [reflexivity|]. split; [reflexivity|].
  split; [reflexivity|]. split; [reflexivity|].
  split; [unfold after, with_net; cbn [caches]; apply with_cache_same|].
  repeat split; vm_compute; reflexivity.
Qed.

End Brightness.

Lemma moveToLevel_sends_cached_color_witness :
  (exists (o : MerossHttp.Outcome unit) (post : MerossHttp.HttpPost),
     Platform.moveToLevel Demo.quiet Demo.bulb (Demo.level_request 300) Demo.start
     = (o, Platform.after Demo.bulb
             {| Platform.lastRgb := 0xffffff; Platform.lastLum := 100 |}
             post Demo.start)
     /\ MerossHttp.payload (MerossHttp.body post)
        = MerossHttp.LightPayload (Some 0xffffff) 5 100 0)
  /\ (exists (o : MerossHttp.Outcome unit) (post : MerossHttp.HttpPost),
        Platform.moveToLevel Demo.quiet Demo.bulb (Demo.level_request 127)
          Demo.start
        = (o, Platform.after Demo.bulb
                {| Platform.lastRgb := 0xffffff; Platform.lastLum := 50 |}
                post Demo.start)
        /\ MerossHttp.payload (MerossHttp.body post)
           = MerossHttp.LightPayload (Some 0xffffff) 5 50 0).
Proof.
  assert (Hrgb : 0 <= Platform.lastRgb
                        (Platform.caches Demo.start (Platform.device_id Demo.bulb))
                 < 2 ^ 32) by (vm_compute; split; [discriminate | reflexivity]).
  assert (Hc : 0 <= 127 <= 254) by lia.
  split.
  - destruct (moveToLevel_sends_cached_color Demo.quiet Demo.bulb
                (Demo.level_request 300) Demo.start 254 eq_refl
                (or_intror (or_introl (conj eq_refl eq_refl))) Hrgb)
      as [o [post [Hrun [_ [_ [Hpayload _]]]]]].
    exists o, post. split; [exact Hrun | exact Hpayload].
  - destruct (moveToLevel_sends_cached_color Demo.quiet Demo.bulb
                (Demo.level_request 127) Demo.start 127 eq_refl
                (or_introl (conj eq_refl Hc)) Hrgb)
      as [o [post [Hrun [_ [_ [Hpayload _]]]]]].
    exists o, post. split; [exact Hrun | exact Hpayload].
Defined.

(** ** The single-outlet platform *)

Section OutletPlatform.
Import Text MerossHttp Outlet.
Local Open Scope string_scope.

Variable source : nat -> Z.
Variable now_ms : Z.

(** X16. With the ip or the key missing or empty, the single-outlet platform
    does nothing: [onStart] registers no outlet and [merossToggle] sends no
    request; both are fulfilled and leave the state as it is, whatever the
    host and the device would have answered. *)
Theorem outlet_without_ip_or_key_does_nothing
    (cfg : MerossPlatformConfig) (reply : FetchResult)
    (host_refuses : option JsError) (on : bool) (s : State) :
  unset (ip cfg) = true \/ unset (key cfg) = true ->
  onStart host_refuses (construct cfg) s = (Fulfilled tt, s)
  /\ merossToggle source now_ms reply (construct cfg) on s = (Fulfilled tt, s).
Proof.
  intros H.
  assert (Hu : unset (merossIp (construct cfg))
               || unset (merossKey (construct cfg)) = true).
  { cbn [construct merossIp merossKey]. apply orb_true_iff. exact H. }
  unfold onStart, merossToggle. rewrite Hu. split; reflexivity.
Qed.

(** X17. With ip and key set, [merossToggle] of the single-outlet platform
    issues exactly one POST to [http://<ip>/config] whose body is the envelope
    that [buildMerossRequest] of merossHttp.ts builds from the same random
    bytes and clock for a ToggleX [SET] with [onoff] 1 or 0 on the configured
    channel (0 when the setting is not a number): the two implementations sign
    alike.  The call is fulfilled for every response, whatever its status and
    body, and rejected only when [fetch] is; [onStart] registers the one
    outlet [meross1] under the configured name, [Meross Light] by default. *)
Theorem outlet_toggle_sends_the_same_envelope
    (cfg : MerossPlatformConfig) (reply : FetchResult) (on : bool) (s : State)
    (the_ip the_key : string) :
  ip cfg = Some the_ip -> key cfg = Some the_key ->
  the_ip <> EmptyString -> the_key <> EmptyString ->
  let post :=
    {| post_url := "http://" ++ the_ip ++ "/config";
       post_body :=
         buildMerossRequest source now_ms the_ip the_key
           "Appliance.Control.ToggleX" SET
           (TogglexPayload (match channel cfg with Some c => c | None => 0 end)
                           (if on then 1 else 0)) |} in
  merossToggle source now_ms reply (construct cfg) on s
  = (match reply with
     | FetchRejected e => Rejected e
     | FetchResponse _ _ => Fulfilled tt
     end,
     {| posted := (posted s ++ [post])%list; outlets := outlets s |})
  /\ onStart None (construct cfg) s
     = (Fulfilled tt,
        {| posted := posted s;
           outlets := (outlets s
                        ++ [{| outlet_id := "meross1";
                               outlet_name := match name cfg with
                                              | Some n => n
                                              | None => "Meross Light"
                                              end;
                               outlet_serial := "MEROSS-SN-LOCAL" |}])%list |}).
Proof.
  intros Hip Hkey Hipne Hkeyne post.
  assert (Hset : forall v, v <> EmptyString -> unset (Some v) = false).
  { intros v Hv. cbn [unset]. apply String.eqb_neq. exact Hv. }
  assert (Hu : unset (merossIp (construct cfg))
               || unset (merossKey (construct cfg)) = false).
  { cbn [construct merossIp merossKey]. rewrite Hip, Hkey.
    rewrite (Hset _ Hipne), (Hset _ Hkeyne). reflexivity. }
  unfold onStart, merossToggle. rewrite Hu. split.
  - cbn [construct merossIp merossKey platform_channel]. rewrite Hip, Hkey.
    cbn [template]. cbv zeta.
    assert (Esign : md5 (hex (randomBytes source 16) ++ the_key
                         ++ JS.Number_toString (now_ms / 1000))
                    = createMerossSign (createMerossMessageId source) the_key
                        (createMerossTimestamp now_ms)).
    { unfold md5, createMerossSign, createMerossMessageId, createMerossTimestamp.
      symmetry. apply hex_lower, digest_are_bytes. }
    rewrite Esign. destruct reply; reflexivity.
  - reflexivity.
Qed.

End OutletPlatform.

(** ** Instances of the further properties *)

Lemma validateDevices_accepts_exactly_witness :
  Platform.validateDevices Demo2.two_devices
  = MerossHttp.Fulfilled [Demo.bulb; Demo2.lamp]
  /\ Platform.validateDevices {| Config.devices := Some [] |}
     = MerossHttp.Rejected
         (MerossHttp.Error "Config error: devices[] is required and must contain at least one device").
Proof.
  split.
  - apply (proj1 (validateDevices_accepts_exactly Demo2.two_devices
                    [Demo.bulb; Demo2.lamp])).
    split; [reflexivity|]. split; [discriminate|].
    split.
    + repeat constructor.
    + repeat constructor; cbn; intuition discriminate.
  - apply (proj2 (validateDevices_accepts_exactly
                    {| Config.devices := Some [] |} [])).
    right. reflexivity.
Defined.

Lemma discoverDevices_registers_every_device_witness :
  exists s' : Platform.State,
    Platform.discoverDevices Demo.quiet Demo2.two_devices Demo.start
    = (MerossHttp.Fulfilled tt, s')
    /\ Platform.registered s'
       = [ {| Platform.endpoint_id := "bulb1"; Platform.deviceName := "Desk";
              Platform.serialNumber := "SN-bulb1" |};
           {| Platform.endpoint_id := "lamp2"; Platform.deviceName := "Shelf";
              Platform.serialNumber := "SN-lamp2" |} ]
    /\ Platform.net s' = [].
Proof.
  destruct (discoverDevices_registers_every_device Demo.quiet Demo2.two_devices
              [Demo.bulb; Demo2.lamp] Demo.start eq_refl (fun _ _ => eq_refl))
    as [s' [Hrun [Hreg [Hnet _]]]].
  exists s'. split; [exact Hrun|]. split; [exact Hreg | exact Hnet].
Defined.

Lemma discoverDevices_stops_at_the_refused_device_witness :
  exists s' : Platform.State,
    Platform.discoverDevices Demo2.refusing Demo2.two_devices Demo.start
    = (MerossHttp.Rejected (MerossHttp.Error "refused"), s')
    /\ Platform.registered s'
       = [ {| Platform.endpoint_id := "bulb1"; Platform.deviceName := "Desk";
              Platform.serialNumber := "SN-bulb1" |} ].
Proof.
  assert (Hok : forall x, In x [Demo.bulb] ->
                  MerossHttp.host_registerDevice Demo2.refusing
                    (Platform.device_id x) = None)
    by (intros x [<- | []]; reflexivity).
  destruct (discoverDevices_stops_at_the_refused_device Demo2.refusing
              Demo2.two_devices [Demo.bulb] Demo2.lamp []
              (MerossHttp.Error "refused") Demo.start eq_refl Hok eq_refl)
    as [s' [Hrun [Hreg _]]].
  exists s'. split; [exact Hrun | exact Hreg].
Defined.

Lemma level_percent_is_monotone_witness :
  exists pa pb : Z,
    Platform.level_percent (JS.Z2f 100) = JS.Z2f pa
    /\ Platform.level_percent (JS.Z2f 200) = JS.Z2f pb
    /\ pa = 39 /\ pb = 79.
Proof.
  assert (H0 : 0 <= 100) by lia.
  assert (H1 : 100 <= 200) by lia.
  assert (H2 : 200 <= 254) by lia.
  destruct (level_percent_is_monotone 100 200 H0 H1 H2)
    as [pa [pb [Ha [Hb [Ea [Eb _]]]]]].
  exists pa, pb. split; [exact Ha|]. split; [exact Hb|].
  split; [exact Ea | exact Eb].
Defined.

Lemma moveToHueAndSaturation_sends_cached_luminance_witness :
  exists post : MerossHttp.HttpPost,
    Platform.moveToHueAndSaturation Demo.quiet Demo.bulb
      (Demo.color_request 0 254) Demo.start
    = (MerossHttp.Fulfilled tt,
       Platform.after Demo.bulb
         {| Platform.lastRgb := 0xff0000; Platform.lastLum := 100 |}
         post Demo.start)
    /\ MerossHttp.payload (MerossHttp.body post)
       = MerossHttp.LightPayload (Some 0xff0000) 5 100 0.
Proof.
  assert (Hp : 0 <= 100 <= 100) by lia.
  destruct (moveToHueAndSaturation_sends_cached_luminance Demo.quiet Demo.bulb
              (Demo.color_request 0 254) Demo.start 100
              eq_refl eq_refl eq_refl Hp)
    as [post [Hrun [Hpayload _]]].
  exists post. split; [exact Hrun | exact Hpayload].
Defined.

Lemma level_then_hue_sends_the_level_luminance_witness :
  exists (o1 o2 : MerossHttp.Outcome unit) (s1 s2 : Platform.State)
         (p1 p2 : MerossHttp.HttpPost),
    Platform.moveToLevel Demo.silent Demo.bulb (Demo.level_request 127)
      Demo.start = (o1, s1)
    /\ Platform.moveToHueAndSaturation Demo.silent Demo.bulb
         (Demo.color_request 85 254) s1 = (o2, s2)
    /\ Platform.net s2 = [p1; p2]
    /\ MerossHttp.payload (MerossHttp.body p2)
       = MerossHttp.LightPayload (Some 0x00ff02) 5 50 0.
Proof.
  assert (Hc : 0 <= 127 <= 254) by lia.
  assert (Hrgb : 0 <= Platform.lastRgb
                        (Platform.caches Demo.start (Platform.device_id Demo.bulb))
                 < 2 ^ 32) by (vm_compute; split; [discriminate | reflexivity]).
  destruct (level_then_hue_sends_the_level_luminance Demo.silent Demo.bulb
              (Demo.level_request 127) (Demo.color_request 85 254) Demo.start
              127 eq_refl eq_refl Hc Hrgb eq_refl eq_refl)
    as [o1 [o2 [s1 [s2 [p1 [p2 [H1 [H2 [Hnet [_ [Hpayload _]]]]]]]]]]].
  exists o1, o2, s1, s2, p1, p2.
  split; [exact H1|]. split; [exact H2|]. split; [exact Hnet | exact Hpayload].
Defined.

Lemma moveToLevelWithOnOff_on_integer_levels_witness :
  exists (o : MerossHttp.Outcome unit) (light : MerossHttp.HttpPost),
    Platform.moveToLevelWithOnOff Demo.quiet Demo.bulb (Demo.level_request 0)
      Demo.start
    = (o, Platform.after Demo.bulb
            {| Platform.lastRgb := 0xffffff; Platform.lastLum := 0 |}
            light Demo.start)
    /\ MerossHttp.payload (MerossHttp.body light)
       = MerossHttp.LightPayload (Some 0xffffff) 5 0 0.
Proof.
  assert (Hc : 0 <= 0 <= 254) by lia.
  assert (Hle : 0 <= 1) by lia.
  assert (Hrgb : 0 <= Platform.lastRgb
                        (Platform.caches Demo.start (Platform.device_id Demo.bulb))
                 < 2 ^ 32) by (vm_compute; split; [discriminate | reflexivity]).
  destruct (proj1 (moveToLevelWithOnOff_on_integer_levels Demo.quiet Demo.bulb
                     (Demo.level_request 0) Demo.start 0 eq_refl eq_refl Hc Hrgb)
                  Hle)
    as [o [light [Hrun [Hpayload _]]]].
  exists o, light. split; [exact Hrun | exact Hpayload].
Defined.

Lemma hsvToRgbInt_landmarks_witness :
  Color.hsvToRgbInt (JS.Z2f 200) 0 = 0xffffff
  /\ Color.hsvToRgbInt 254 (JS.Z2f 127) = Color.hsvToRgbInt 0 (JS.Z2f 127).
Proof.
  assert (Hh : 0 <= 200 <= 254) by lia.
  assert (Hs : 0 <= 127 <= 254) by lia.
  exact (proj2 (hsvToRgbInt_landmarks 200 127 Hh Hs)).
Defined.

Lemma hsvToRgbInt_saturates_witness :
  Color.hsvToRgbInt 300 (-5) = Color.hsvToRgbInt 254 (-5)
  /\ Color.hsvToRgbInt 300 (-5) = Color.hsvToRgbInt 300 0.
Proof.
  destruct (hsvToRgbInt_saturates 300 (-5)) as [_ [Habove [_ [_ [Hbelow _]]]]].
  split; [exact (Habove eq_refl) | exact (Hbelow eq_refl)].
Defined.

Lemma outlet_without_ip_or_key_does_nothing_witness :
  Outlet.onStart None Demo2.unconfigured Demo2.idle
  = (MerossHttp.Fulfilled tt, Demo2.idle)
  /\ Outlet.merossToggle (fun i => Z.of_nat i) 1700000000000
       (MerossHttp.FetchResponse 200 (MerossHttp.Fulfilled EmptyString))
       Demo2.unconfigured true Demo2.idle
     = (MerossHttp.Fulfilled tt, Demo2.idle).
Proof.
  apply (outlet_without_ip_or_key_does_nothing (fun i => Z.of_nat i)
           1700000000000
           {| Outlet.ip := Some "192.168.1.30"%string; Outlet.key := None;
              Outlet.name := Some "Plug"%string; Outlet.channel := Some 2 |}).
  right. reflexivity.
Defined.

Lemma outlet_toggle_sends_the_same_envelope_witness :
  exists post : Outlet.Post,
    Outlet.merossToggle (fun i => Z.of_nat i) 1700000000000
      (MerossHttp.FetchResponse 500 (MerossHttp.Fulfilled "busy"%string))
      Demo2.outlet true Demo2.idle
    = (MerossHttp.Fulfilled tt,
       {| Outlet.posted := [post]; Outlet.outlets := [] |})
    /\ Outlet.post_body post
       = MerossHttp.buildMerossRequest (fun i => Z.of_nat i) 1700000000000
           "192.168.1.30" "k" "Appliance.Control.ToggleX" MerossHttp.SET
           (MerossHttp.TogglexPayload 0 1).
Proof.
  assert (H1 : "192.168.1.30"%string <> EmptyString) by discriminate.
  assert (H2 : "k"%string <> EmptyString) by discriminate.
  pose proof (outlet_toggle_sends_the_same_envelope (fun i => Z.of_nat i)
                1700000000000
                {| Outlet.ip := Some "192.168.1.30"%string;
                   Outlet.key := Some "k"%string;
                   Outlet.name := None; Outlet.channel := None |}
                (MerossHttp.FetchResponse 500 (MerossHttp.Fulfilled "busy"%string))
                true Demo2.idle "192.168.1.30" "k" eq_refl eq_refl H1 H2) as H.
  cbv zeta in H. destruct H as [Hrun _].
  eexists. split; [exact Hrun | reflexivity].
Defined.
